(** * HomeKit Controller television entity

    A shallow embedding of
    [homeassistant/components/homekit_controller/media_player.py]
    (class [HomeKitTelevision]) together with the properties of its derived
    state, source handling, feature discovery and command handlers. *)

From Stdlib Require Import ZArith NArith String List.
From stdpp Require Import gmap strings list.

Local Open Scope Z_scope.
Local Open Scope string_scope.

(** ** Python values

    The seven characteristics the entity reads have the HomeKit formats
    uint8, uint32 and string; their JSON values therefore are [null], an
    integer or a string. *)

Inductive pyval : Type :=
| PyNone
| PyInt (z : Z)
| PyStr (s : string).

#[global] Instance pyval_eq_dec : EqDecision pyval.
Proof. solve_decision. Defined.

(** Python's truth value of an object: [not v] is [negb (truthy v)]. *)
Definition truthy (v : pyval) : bool :=
  match v with
  | PyNone => false
  | PyInt z => negb (Z.eqb z 0)
  | PyStr s => negb (String.eqb s "")
  end.

(** Python's [==] on these values; an [int] never equals a [str] or [None]. *)
Definition py_eq (a b : pyval) : bool := bool_decide (a = b).

(** ** Characteristic kinds, exceptions and results *)

Inductive CharacteristicsTypes : Type :=
| ACTIVE
| CURRENT_MEDIA_STATE
| TARGET_MEDIA_STATE
| REMOTE_KEY
| ACTIVE_IDENTIFIER
| CONFIGURED_NAME
| IDENTIFIER.

#[global] Instance CharacteristicsTypes_eq_dec : EqDecision CharacteristicsTypes.
Proof. solve_decision. Defined.

Definition CharacteristicsTypes_code (c : CharacteristicsTypes) : nat :=
  match c with
  | ACTIVE => 0
  | CURRENT_MEDIA_STATE => 1
  | TARGET_MEDIA_STATE => 2
  | REMOTE_KEY => 3
  | ACTIVE_IDENTIFIER => 4
  | CONFIGURED_NAME => 5
  | IDENTIFIER => 6
  end%nat.

Definition CharacteristicsTypes_of_code (n : nat) : CharacteristicsTypes :=
  match n with
  | 0 => ACTIVE
  | 1 => CURRENT_MEDIA_STATE
  | 2 => TARGET_MEDIA_STATE
  | 3 => REMOTE_KEY
  | 4 => ACTIVE_IDENTIFIER
  | 5 => CONFIGURED_NAME
  | _ => IDENTIFIER
  end%nat.

#[global] Instance CharacteristicsTypes_countable : Countable CharacteristicsTypes.
Proof.
  apply (inj_countable' CharacteristicsTypes_code CharacteristicsTypes_of_code).
  intros c; destruct c; reflexivity.
Defined.

Inductive exn : Type :=
| TypeError                              (* subscripting [None] *)
| KeyError (key : CharacteristicsTypes)  (* characteristic missing on a service *)
| ValueError (msg : string).

Inductive result (A : Type) : Type :=
| Return (a : A)
| Raise (e : exn).

Arguments Return {A} a.
Arguments Raise {A} e.

Definition result_bind {A B : Type} (r : result A) (k : A -> result B) : result B :=
  match r with
  | Return a => k a
  | Raise e => Raise e
  end.

(** ** Enumerations of the accessory protocol *)

(** Modelled from the spec: the enumerations [CurrentMediaStateValues],
    [TargetMediaStateValues] and [RemoteKeyValues] are imported from the
    external package [aiohomekit]; the spec names their members
    (PLAYING, PAUSED, STOPPED; PLAY, PAUSE, STOP; PLAY_PAUSE). They are
    integer enumerations, members compare and hash as their integers. *)
Module CurrentMediaStateValues.
Definition PLAYING : Z := 0.
Definition PAUSED : Z := 1.
Definition STOPPED : Z := 2.
End CurrentMediaStateValues.

Module TargetMediaStateValues.
Definition PLAY : Z := 0.
Definition PAUSE : Z := 1.
Definition STOP : Z := 2.
Definition members : gset Z := {[ PLAY; PAUSE; STOP ]}.
End TargetMediaStateValues.

Module RemoteKeyValues.
Definition REWIND : Z := 0.
Definition FAST_FORWARD : Z := 1.
Definition NEXT_TRACK : Z := 2.
Definition PREVIOUS_TRACK : Z := 3.
Definition ARROW_UP : Z := 4.
Definition ARROW_DOWN : Z := 5.
Definition ARROW_LEFT : Z := 6.
Definition ARROW_RIGHT : Z := 7.
Definition SELECT : Z := 8.
Definition BACK : Z := 9.
Definition EXIT : Z := 10.
Definition PLAY_PAUSE : Z := 11.
Definition INFORMATION : Z := 15.
Definition members : gset Z :=
  {[ REWIND; FAST_FORWARD; NEXT_TRACK; PREVIOUS_TRACK; ARROW_UP; ARROW_DOWN;
     ARROW_LEFT; ARROW_RIGHT; SELECT; BACK; EXIT; PLAY_PAUSE; INFORMATION ]}.
End RemoteKeyValues.

Inductive ServicesTypes : Type :=
| TELEVISION
| INPUT_SOURCE
| OTHER_SERVICE (uuid : string).

#[global] Instance ServicesTypes_eq_dec : EqDecision ServicesTypes.
Proof. solve_decision. Defined.

(** ** The accessory: characteristics and services *)

(** Modelled from the spec: the accessory model ([Characteristic], [Service],
    the service list) belongs to the external package [aiohomekit]. Spec:
    a characteristic is "a typed, named attribute of a service"; a service
    has "an instance id and a set of Characteristic values";
    [intersectAdvertisedEnum] works on "a device's advertised characteristic
    values", kept here as [valid_values]. *)
Module Characteristic.
Record t : Type := {
  type : CharacteristicsTypes;
  value : pyval;
  valid_values : gset Z
}.
End Characteristic.

(** Modelled from the spec: [readCharacteristic(serviceInstanceId,
    characteristicKind) -> value | absent]. A service holds at most one
    characteristic of each kind; [linked] lists the instance ids of the
    services parented under it. *)
Module Service.
Record t : Type := {
  iid : Z;
  type : ServicesTypes;
  characteristics_by_type : gmap CharacteristicsTypes Characteristic.t;
  linked : list Z
}.

(** [service.value(char_type)]: the value, [None] when the kind is absent. *)
Definition value (s : t) (char_type : CharacteristicsTypes) : pyval :=
  match characteristics_by_type s !! char_type with
  | Some c => Characteristic.value c
  | None => PyNone
  end.

(** [service[char_type]]: a missing key raises [KeyError]. *)
Definition getitem (s : t) (char_type : CharacteristicsTypes)
  : result Characteristic.t :=
  match characteristics_by_type s !! char_type with
  | Some c => Return c
  | None => Raise (KeyError char_type)
  end.
End Service.

(** Subscripting the outcome of [services.first(...)]: Python raises
    [TypeError] when the object is [None]. *)
Definition subscript (o : option Service.t) (char_type : CharacteristicsTypes)
  : result Characteristic.t :=
  match o with
  | Some s => Service.getitem s char_type
  | None => Raise TypeError
  end.

(** Modelled from the spec: [enumerateServices(filter: {type,
    parentServiceInstanceId, characteristicEquals}) -> ordered list of
    services]. Each criterion is applied only when it is given (a truthy
    argument); the enumeration order of the accessory is kept. *)
Module Services.
Definition filter (services : list Service.t)
    (service_type : option ServicesTypes)
    (characteristics : list (CharacteristicsTypes * pyval))
    (parent_service : option Service.t) : list Service.t :=
  let by_type :=
    match service_type with
    | Some ty => List.filter (fun s => bool_decide (Service.type s = ty)) services
    | None => services
    end in
  let by_chars :=
    fold_left
      (fun matches kv =>
         List.filter (fun s => py_eq (Service.value s (fst kv)) (snd kv)) matches)
      characteristics by_type in
  match parent_service with
  | Some p =>
      List.filter (fun s => bool_decide (Service.iid s ∈ Service.linked p)) by_chars
  | None => by_chars
  end.

(** [first] is the head of [filter], [None] when nothing matches. *)
Definition first (services : list Service.t)
    (service_type : option ServicesTypes)
    (characteristics : list (CharacteristicsTypes * pyval))
    (parent_service : option Service.t) : option Service.t :=
  head (filter services service_type characteristics parent_service).
End Services.

(** The characteristic snapshot an entity reads: the services of
    [entity_map.aid(self._aid)] in enumeration order and the television
    service that [services.iid(self._iid)] resolves to. The entity is created
    by [async_add_service] for a service found on the accessory. *)
Record Snapshot : Type := {
  services : list Service.t;
  this_tv : Service.t
}.

(** ** State constants *)

(** Modelled from the spec: [homeassistant.const] is not among the sources;
    the spec names the states problem, ok, playing, paused and idle. *)
Definition STATE_IDLE : string := "idle".
Definition STATE_OK : string := "ok".
Definition STATE_PAUSED : string := "paused".
Definition STATE_PLAYING : string := "playing".
Definition STATE_PROBLEM : string := "problem".

(** [HK_TO_HA_STATE], a dict keyed by the integer enumeration members. *)
Definition HK_TO_HA_STATE : list (Z * string) :=
  [ (CurrentMediaStateValues.PLAYING, STATE_PLAYING);
    (CurrentMediaStateValues.PAUSED, STATE_PAUSED);
    (CurrentMediaStateValues.STOPPED, STATE_IDLE) ].

(** [d.get(key, default)] for a dict with integer keys. *)
Fixpoint dict_get (d : list (Z * string)) (key : pyval) (default : string) : string :=
  match d with
  | [] => default
  | (k, v) :: d' => if py_eq key (PyInt k) then v else dict_get d' key default
  end.

(** ** Read-only properties *)

(** [HomeKitTelevision.state] *)
Definition state (snap : Snapshot) : string :=
  let active := Service.value (this_tv snap) ACTIVE in
  if negb (truthy active) then STATE_PROBLEM
  else
    let homekit_state := Service.value (this_tv snap) CURRENT_MEDIA_STATE in
    if negb (py_eq homekit_state PyNone)
    then dict_get HK_TO_HA_STATE homekit_state STATE_OK
    else STATE_OK.

Declare Scope result_scope.
Delimit Scope result_scope with result.
Notation "x <- c1 ;; c2" := (result_bind c1 (fun x => c2))
  (at level 100, c1 at next level, right associativity) : result_scope.

(** The loop of [source_list]: subscript each input source in turn and append
    the value of its configured name. *)
Fixpoint source_list_loop (input_sources : list Service.t) (sources : list pyval)
  : result (list pyval) :=
  match input_sources with
  | [] => Return sources
  | input_source :: rest =>
      (char <- Service.getitem input_source CONFIGURED_NAME ;;
       source_list_loop rest (sources ++ [Characteristic.value char]))%result
  end.

(** [HomeKitTelevision.source_list] *)
Definition source_list (snap : Snapshot) : result (list pyval) :=
  let input_sources :=
    Services.filter (services snap) (Some INPUT_SOURCE) [] (Some (this_tv snap)) in
  source_list_loop input_sources [].

(** [HomeKitTelevision.source] *)
Definition source (snap : Snapshot) : result pyval :=
  let active_identifier := Service.value (this_tv snap) ACTIVE_IDENTIFIER in
  if negb (truthy active_identifier) then Return PyNone
  else
    let input_source :=
      Services.first (services snap) (Some INPUT_SOURCE)
        [(IDENTIFIER, active_identifier)] (Some (this_tv snap)) in
    (char <- subscript input_source CONFIGURED_NAME ;;
     Return (Characteristic.value char))%result.

(** ** The entity and its command handlers *)

(** The fields assigned in [__init__]. *)
Record HomeKitTelevision : Type := {
  _state : pyval;
  _features : N;
  _supported_target_media_state : gset Z;
  _supported_remote_key : gset Z
}.

Definition __init__ : HomeKitTelevision :=
  {| _state := PyNone;
     _features := 0%N;
     _supported_target_media_state := ∅;
     _supported_remote_key := ∅ |}.

(** One call of [async_put_characteristics]: the dict it is given. *)
Definition put_request : Type := list (CharacteristicsTypes * pyval).

(** What a command handler can touch: the entity's fields and the requests
    handed to the transport so far. *)
Record World : Type := {
  self : HomeKitTelevision;
  puts : list put_request
}.

Definition Cmd (A : Type) : Type := World -> result A * World.

Definition cmd_ret {A : Type} (a : A) : Cmd A := fun w => (Return a, w).

Definition cmd_bind {A B : Type} (c : Cmd A) (k : A -> Cmd B) : Cmd B :=
  fun w =>
    match c w with
    | (Return a, w') => k a w'
    | (Raise e, w') => (Raise e, w')
    end.

Definition cmd_raise {A : Type} (e : exn) : Cmd A := fun w => (Raise e, w).

Definition cmd_lift {A : Type} (r : result A) : Cmd A := fun w => (r, w).

Definition get_self : Cmd HomeKitTelevision := fun w => (Return (self w), w).

(** Modelled from the spec: [async_put_characteristics] is a method of the
    base class [HomeKitEntity], which is not among the sources. Spec:
    [writeCharacteristics(map<characteristicKind, value>)], "single round-trip
    writes to the transport collaborator". The request is recorded; what the
    transport answers is outside this model. *)
Definition async_put_characteristics (characteristics : put_request) : Cmd unit :=
  fun w => (Return tt, {| self := self w; puts := puts w ++ [characteristics] |}).

Declare Scope cmd_scope.
Delimit Scope cmd_scope with cmd.
Notation "x <- c1 ;; c2" := (cmd_bind c1 (fun x => c2))
  (at level 100, c1 at next level, right associativity) : cmd_scope.

(** [HomeKitTelevision.async_media_play]; the debug log line leaves no trace. *)
Definition async_media_play (snap : Snapshot) : Cmd unit :=
  (me <- get_self ;;
   if String.eqb (state snap) STATE_PLAYING then cmd_ret tt
   else if bool_decide (TargetMediaStateValues.PLAY ∈ _supported_target_media_state me)
   then async_put_characteristics
          [(TARGET_MEDIA_STATE, PyInt TargetMediaStateValues.PLAY)]
   else if bool_decide (RemoteKeyValues.PLAY_PAUSE ∈ _supported_remote_key me)
   then async_put_characteristics [(REMOTE_KEY, PyInt RemoteKeyValues.PLAY_PAUSE)]
   else cmd_ret tt)%cmd.

(** [HomeKitTelevision.async_media_pause] *)
Definition async_media_pause (snap : Snapshot) : Cmd unit :=
  (me <- get_self ;;
   if String.eqb (state snap) STATE_PAUSED then cmd_ret tt
   else if bool_decide (TargetMediaStateValues.PAUSE ∈ _supported_target_media_state me)
   then async_put_characteristics
          [(TARGET_MEDIA_STATE, PyInt TargetMediaStateValues.PAUSE)]
   else if bool_decide (RemoteKeyValues.PLAY_PAUSE ∈ _supported_remote_key me)
   then async_put_characteristics [(REMOTE_KEY, PyInt RemoteKeyValues.PLAY_PAUSE)]
   else cmd_ret tt)%cmd.

(** [HomeKitTelevision.async_media_stop] *)
Definition async_media_stop (snap : Snapshot) : Cmd unit :=
  (me <- get_self ;;
   if String.eqb (state snap) STATE_IDLE then cmd_ret tt
   else if bool_decide (TargetMediaStateValues.STOP ∈ _supported_target_media_state me)
   then async_put_characteristics
          [(TARGET_MEDIA_STATE, PyInt TargetMediaStateValues.STOP)]
   else cmd_ret tt)%cmd.

(** [HomeKitTelevision.async_select_source]. A service object has neither
    [__bool__] nor [__len__], so [not input_source] holds exactly when
    [first] gave [None]. *)
Definition async_select_source (snap : Snapshot) (source : string) : Cmd unit :=
  let input_source :=
    Services.first (services snap) (Some INPUT_SOURCE)
      [(CONFIGURED_NAME, PyStr source)] (Some (this_tv snap)) in
  match input_source with
  | None => cmd_raise (ValueError ("Could not find source " ++ source))
  | Some found =>
      (identifier <- cmd_lift (Service.getitem found IDENTIFIER) ;;
       async_put_characteristics
         [(ACTIVE_IDENTIFIER, Characteristic.value identifier)])%cmd
  end.

(** ** Feature discovery *)

(** Modelled from the spec: [clamp_enum_to_char] belongs to the external
    package [aiohomekit]: "the enum-clamping utility that intersects a
    device's advertised characteristic values with a known value set",
    [intersectAdvertisedEnum(knownEnumValues, characteristic) -> set of
    supported enum values]. *)
Definition clamp_enum_to_char (all_valid_values : gset Z) (char : Characteristic.t)
  : gset Z :=
  all_valid_values ∩ Characteristic.valid_values char.

(** The feature masks of [homeassistant.components.media_player.const]. That
    module is not among the sources, so the masks are parameters of the
    development. *)
Class media_player_const : Type := {
  SUPPORT_PAUSE : N;
  SUPPORT_PLAY : N;
  SUPPORT_SELECT_SOURCE : N;
  SUPPORT_STOP : N
}.

(** The masks the platform ships: distinct single bits. *)
Definition platform_const : media_player_const :=
  {| SUPPORT_PAUSE := 1;
     SUPPORT_PLAY := 16384;
     SUPPORT_SELECT_SOURCE := 2048;
     SUPPORT_STOP := 4096 |}.

(** A feature is on when [features & mask] is truthy. *)
Definition supports (features mask : N) : bool :=
  negb (N.eqb (N.land features mask) 0).

(** The four masks are usable as a bitset: none is empty and no two overlap. *)
Definition independent_flags (C : media_player_const) : Prop :=
  (SUPPORT_PAUSE <> 0 /\ SUPPORT_PLAY <> 0 /\
   SUPPORT_SELECT_SOURCE <> 0 /\ SUPPORT_STOP <> 0)%N /\
  (N.land SUPPORT_PAUSE SUPPORT_PLAY = 0 /\
   N.land SUPPORT_PAUSE SUPPORT_SELECT_SOURCE = 0 /\
   N.land SUPPORT_PAUSE SUPPORT_STOP = 0 /\
   N.land SUPPORT_PLAY SUPPORT_SELECT_SOURCE = 0 /\
   N.land SUPPORT_PLAY SUPPORT_STOP = 0 /\
   N.land SUPPORT_SELECT_SOURCE SUPPORT_STOP = 0)%N.

Definition with_features (me : HomeKitTelevision) (features : N) : HomeKitTelevision :=
  {| _state := _state me;
     _features := features;
     _supported_target_media_state := _supported_target_media_state me;
     _supported_remote_key := _supported_remote_key me |}.

Section Setup.
Context {C : media_player_const}.

(** [HomeKitTelevision._setup_active_identifier] *)
Definition _setup_active_identifier (char : Characteristic.t)
    (me : HomeKitTelevision) : HomeKitTelevision :=
  with_features me (N.lor (_features me) SUPPORT_SELECT_SOURCE).

(** [HomeKitTelevision._setup_target_media_state] *)
Definition _setup_target_media_state (char : Characteristic.t)
    (me : HomeKitTelevision) : HomeKitTelevision :=
  let me1 :=
    {| _state := _state me;
       _features := _features me;
       _supported_target_media_state :=
         clamp_enum_to_char TargetMediaStateValues.members char;
       _supported_remote_key := _supported_remote_key me |} in
  let me2 :=
    if bool_decide (TargetMediaStateValues.PAUSE ∈ _supported_target_media_state me1)
    then with_features me1 (N.lor (_features me1) SUPPORT_PAUSE) else me1 in
  let me3 :=
    if bool_decide (TargetMediaStateValues.PLAY ∈ _supported_target_media_state me2)
    then with_features me2 (N.lor (_features me2) SUPPORT_PLAY) else me2 in
  if bool_decide (TargetMediaStateValues.STOP ∈ _supported_target_media_state me3)
  then with_features me3 (N.lor (_features me3) SUPPORT_STOP) else me3.

(** [HomeKitTelevision._setup_remote_key] *)
Definition _setup_remote_key (char : Characteristic.t)
    (me : HomeKitTelevision) : HomeKitTelevision :=
  let me1 :=
    {| _state := _state me;
       _features := _features me;
       _supported_target_media_state := _supported_target_media_state me;
       _supported_remote_key := clamp_enum_to_char RemoteKeyValues.members char |} in
  if bool_decide (RemoteKeyValues.PLAY_PAUSE ∈ _supported_remote_key me1)
  then with_features me1 (N.lor (_features me1) (N.lor SUPPORT_PAUSE SUPPORT_PLAY))
  else me1.

(** Modelled from the spec: the dispatch of the base class [HomeKitEntity]
    (not among the sources), which hands a characteristic to the method
    [_setup_<kind>] when the entity defines one. Spec: "For each of
    active-identifier, target-media-state, and remote-key, a setup callback
    derives capability flags". *)
Definition _setup_characteristic (me : HomeKitTelevision) (char : Characteristic.t)
  : HomeKitTelevision :=
  match Characteristic.type char with
  | ACTIVE_IDENTIFIER => _setup_active_identifier char me
  | TARGET_MEDIA_STATE => _setup_target_media_state char me
  | REMOTE_KEY => _setup_remote_key char me
  | _ => me
  end.

(** Modelled from the spec: [HomeKitEntity.setup] (not among the sources) runs
    the callbacks over the characteristics the accessory advertises, in the
    order it enumerates them. *)
Definition setup (chars : list Characteristic.t) (me : HomeKitTelevision)
  : HomeKitTelevision :=
  fold_left _setup_characteristic chars me.

End Setup.

(** [HomeKitTelevision.supported_features] *)
Definition supported_features (me : HomeKitTelevision) : N := _features me.

(** ** Specification vocabulary *)

(** An input-source sibling of the television [tv]: a service of type input
    source that is parented under [tv]. *)
Definition is_input_source_of (tv s : Service.t) : bool :=
  bool_decide (Service.type s = INPUT_SOURCE)
  && bool_decide (Service.iid s ∈ Service.linked tv).

(** The input-source siblings of the television, in enumeration order. *)
Definition input_source_siblings (snap : Snapshot) : list Service.t :=
  List.filter (is_input_source_of (this_tv snap)) (services snap).

(** The siblings whose characteristic [kind] has the value [v]. *)
Definition siblings_with (snap : Snapshot) (kind : CharacteristicsTypes) (v : pyval)
  : list Service.t :=
  List.filter (fun s => py_eq (Service.value s kind) v) (input_source_siblings snap).

(** The service carries a characteristic of the given kind. *)
Definition has_characteristic (kind : CharacteristicsTypes) (s : Service.t) : Prop :=
  is_Some (Service.characteristics_by_type s !! kind).

(** The capability fields of the entity are the same in both worlds. *)
Definition same_capabilities (w w' : World) : Prop :=
  _features (self w') = _features (self w)
  /\ _supported_target_media_state (self w') = _supported_target_media_state (self w)
  /\ _supported_remote_key (self w') = _supported_remote_key (self w).

(** The world after one more request to the transport. *)
Definition issue (w : World) (request : put_request) : World :=
  {| self := self w; puts := puts w ++ [request] |}.

(** A command that leaves the entity's own fields as they were. *)
Definition preserves_self {A : Type} (c : Cmd A) : Prop :=
  forall w, self (snd (c w)) = self w.

(** The four features the entity can announce. *)
Inductive feature : Type :=
| FeaturePause
| FeaturePlay
| FeatureSelectSource
| FeatureStop.

#[global] Instance feature_eq_dec : EqDecision feature.
Proof. solve_decision. Defined.

Definition mask {C : media_player_const} (f : feature) : N :=
  match f with
  | FeaturePause => SUPPORT_PAUSE
  | FeaturePlay => SUPPORT_PLAY
  | FeatureSelectSource => SUPPORT_SELECT_SOURCE
  | FeatureStop => SUPPORT_STOP
  end.

(** The characteristic is of the given kind and [member] lies in the
    intersection of the enumeration with its advertised values. *)
Definition advertises (kind : CharacteristicsTypes) (enum : gset Z) (member : Z)
    (char : Characteristic.t) : Prop :=
  Characteristic.type char = kind /\ member ∈ clamp_enum_to_char enum char.

(** What the specification lets one characteristic switch on: an active
    identifier enables source selection; a target media state enables play,
    pause and stop for the members it advertises; a remote key that
    advertises PLAY_PAUSE enables both play and pause. *)
Definition enables (f : feature) (char : Characteristic.t) : bool :=
  match Characteristic.type char, f with
  | ACTIVE_IDENTIFIER, FeatureSelectSource => true
  | TARGET_MEDIA_STATE, FeaturePause =>
      bool_decide (TargetMediaStateValues.PAUSE
                   ∈ clamp_enum_to_char TargetMediaStateValues.members char)
  | TARGET_MEDIA_STATE, FeaturePlay =>
      bool_decide (TargetMediaStateValues.PLAY
                   ∈ clamp_enum_to_char TargetMediaStateValues.members char)
  | TARGET_MEDIA_STATE, FeatureStop =>
      bool_decide (TargetMediaStateValues.STOP
                   ∈ clamp_enum_to_char TargetMediaStateValues.members char)
  | REMOTE_KEY, FeaturePause | REMOTE_KEY, FeaturePlay =>
      bool_decide (RemoteKeyValues.PLAY_PAUSE
                   ∈ clamp_enum_to_char RemoteKeyValues.members char)
  | _, _ => false
  end.

(** ** Sample accessory *)

Definition make_service (iid : Z) (ty : ServicesTypes)
    (chars : list Characteristic.t) (linked : list Z) : Service.t :=
  {| Service.iid := iid;
     Service.type := ty;
     Service.characteristics_by_type :=
       list_to_map (map (fun c => (Characteristic.type c, c)) chars);
     Service.linked := linked |}.

Definition plain (kind : CharacteristicsTypes) (v : pyval) : Characteristic.t :=
  {| Characteristic.type := kind;
     Characteristic.value := v;
     Characteristic.valid_values := ∅ |}.

Definition sample_target_media_state : Characteristic.t :=
  {| Characteristic.type := TARGET_MEDIA_STATE;
     Characteristic.value := PyInt 0;
     Characteristic.valid_values := {[ 0; 1 ]} |}.

Definition sample_remote_key : Characteristic.t :=
  {| Characteristic.type := REMOTE_KEY;
     Characteristic.value := PyNone;
     Characteristic.valid_values := {[ 4; 5; 11 ]} |}.

(** What the sample television advertises to the setup callbacks. *)
Definition sample_chars : list Characteristic.t :=
  [plain ACTIVE (PyInt 1); sample_target_media_state; sample_remote_key;
   plain ACTIVE_IDENTIFIER (PyInt 3)].

Definition hdmi1 : Service.t :=
  make_service 2 INPUT_SOURCE
    [plain CONFIGURED_NAME (PyStr "HDMI 1"); plain IDENTIFIER (PyInt 3)] [].

Definition hdmi2 : Service.t :=
  make_service 3 INPUT_SOURCE
    [plain CONFIGURED_NAME (PyStr "HDMI 2"); plain IDENTIFIER (PyInt 4)] [].

Definition speaker : Service.t :=
  make_service 4 (OTHER_SERVICE "113") [plain ACTIVE (PyInt 1)] [].

(** A television with the given [active], [current-media-state] and
    [active-identifier] values and two inputs. *)
Definition sample_tv (active media identifier : pyval) : Service.t :=
  make_service 1 TELEVISION
    [plain ACTIVE active; plain CURRENT_MEDIA_STATE media;
     sample_target_media_state; sample_remote_key;
     plain ACTIVE_IDENTIFIER identifier] [2; 3].

Definition sample_snapshot (active media identifier : pyval) : Snapshot :=
  {| services := [sample_tv active media identifier; hdmi1; speaker; hdmi2];
     this_tv := sample_tv active media identifier |}.

(** A television that is on, stopped, and showing the first input. *)
Definition snap_on : Snapshot := sample_snapshot (PyInt 1) (PyInt 2) (PyInt 3).

(** The same television switched off. *)
Definition snap_off : Snapshot := sample_snapshot (PyInt 0) (PyInt 0) (PyInt 3).

(** The active identifier names an input that the accessory does not list. *)
Definition snap_stale : Snapshot := sample_snapshot (PyInt 1) (PyInt 2) (PyInt 7).

(** An entity that supports every target state and the toggle key. *)
Definition capable : HomeKitTelevision :=
  {| _state := PyNone;
     _features := 0%N;
     _supported_target_media_state := TargetMediaStateValues.members;
     _supported_remote_key := {[ RemoteKeyValues.PLAY_PAUSE ]} |}.

(** An entity whose only capability is the toggle key. *)
Definition toggle_only : HomeKitTelevision :=
  {| _state := PyNone;
     _features := 0%N;
     _supported_target_media_state := ∅;
     _supported_remote_key := {[ RemoteKeyValues.PLAY_PAUSE ]} |}.

Definition world_of (me : HomeKitTelevision) : World := {| self := me; puts := [] |}.

(** ** Vocabulary for the further properties *)

(** The five states the entity can report. *)
Definition STATES : list string :=
  [STATE_PROBLEM; STATE_OK; STATE_PLAYING; STATE_PAUSED; STATE_IDLE].

(** The request log of [w'] is the one of [w] followed by at most one
    request, and such a request writes a single characteristic. *)
Definition appends_at_most_one (w w' : World) : Prop :=
  exists extra : list put_request,
    puts w' = (puts w ++ extra)%list
    /\ (length extra <= 1)%nat
    /\ Forall (fun request : put_request => length request = 1%nat) extra.

(** The bits the callback of one characteristic ors into the features. *)
Definition contribution {C : media_player_const} (char : Characteristic.t) : N :=
  match Characteristic.type char with
  | ACTIVE_IDENTIFIER => SUPPORT_SELECT_SOURCE
  | TARGET_MEDIA_STATE =>
      let supported := clamp_enum_to_char TargetMediaStateValues.members char in
      N.lor
        (N.lor
           (if bool_decide (TargetMediaStateValues.PAUSE ∈ supported)
            then SUPPORT_PAUSE else 0%N)
           (if bool_decide (TargetMediaStateValues.PLAY ∈ supported)
            then SUPPORT_PLAY else 0%N))
        (if bool_decide (TargetMediaStateValues.STOP ∈ supported)
         then SUPPORT_STOP else 0%N)
  | REMOTE_KEY =>
      if bool_decide (RemoteKeyValues.PLAY_PAUSE
                      ∈ clamp_enum_to_char RemoteKeyValues.members char)
      then N.lor SUPPORT_PAUSE SUPPORT_PLAY else 0%N
  | _ => 0%N
  end.

Definition all_contributions {C : media_player_const}
    (chars : list Characteristic.t) : N :=
  fold_right (fun char acc => N.lor (contribution char) acc) 0%N chars.

(** The clamp of the last characteristic of the given kind, [init] when
    there is none. *)
Definition last_clamp (kind : CharacteristicsTypes) (enum : gset Z)
    (chars : list Characteristic.t) (init : gset Z) : gset Z :=
  fold_left
    (fun acc char =>
       if bool_decide (Characteristic.type char = kind)
       then clamp_enum_to_char enum char else acc)
    chars init.

(** The sample television after it switched to the second input. *)
Definition snap_hdmi2 : Snapshot := sample_snapshot (PyInt 1) (PyInt 2) (PyInt 4).

(** An input source without a configured name and one without an
    identifier, on a television that lists them after a sound input. *)
Definition nameless : Service.t :=
  make_service 5 INPUT_SOURCE [plain IDENTIFIER (PyInt 5)] [].

Definition numberless : Service.t :=
  make_service 6 INPUT_SOURCE [plain CONFIGURED_NAME (PyStr "AV")] [].

Definition broken_tv : Service.t :=
  make_service 1 TELEVISION
    [plain ACTIVE (PyInt 1); plain ACTIVE_IDENTIFIER (PyInt 5)] [2; 5; 6].

Definition snap_broken : Snapshot :=
  {| services := [broken_tv; hdmi1; nameless; numberless];
     this_tv := broken_tv |}.

(** ** Proof steps shared by the command and setup lemmas *)

Ltac run_handler :=
  unfold async_media_play, async_media_pause, async_media_stop,
    cmd_bind, get_self, cmd_ret, async_put_characteristics, issue;
  simpl.

Ltac decide_guards :=
  repeat first
    [ rewrite (proj2 (String.eqb_eq _ _)) by assumption
    | rewrite (proj2 (String.eqb_neq _ _)) by assumption
    | rewrite bool_decide_eq_true_2 by assumption
    | rewrite bool_decide_eq_false_2 by assumption ].

Ltac project_fields :=
  cbn [with_features _state _features _supported_target_media_state
       _supported_remote_key].

Ltac fold_masks :=
  change SUPPORT_PAUSE with (mask FeaturePause);
  change SUPPORT_PLAY with (mask FeaturePlay);
  change SUPPORT_SELECT_SOURCE with (mask FeatureSelectSource);
  change SUPPORT_STOP with (mask FeatureStop).

(** * Properties *)

(** ** Sanity checks on the sample accessory *)

Example state_snap_on : state snap_on = "idle".
Proof. reflexivity. Qed.

Example state_snap_off : state snap_off = "problem".
Proof. reflexivity. Qed.

Example source_list_snap_on :
  source_list snap_on = Return [PyStr "HDMI 1"; PyStr "HDMI 2"].
Proof. vm_compute. reflexivity. Qed.

Example source_snap_on : source snap_on = Return (PyStr "HDMI 1").
Proof. vm_compute. reflexivity. Qed.

Example play_snap_on :
  async_media_play snap_on (world_of capable)
  = (Return tt, issue (world_of capable) [(TARGET_MEDIA_STATE, PyInt 0)]).
Proof. vm_compute. reflexivity. Qed.

Example play_toggle_snap_on :
  puts (snd (async_media_play snap_on (world_of toggle_only)))
  = [[(REMOTE_KEY, PyInt 11)]].
Proof. vm_compute. reflexivity. Qed.

Example select_hdmi2 :
  puts (snd (async_select_source snap_on "HDMI 2" (world_of capable)))
  = [[(ACTIVE_IDENTIFIER, PyInt 4)]].
Proof. vm_compute. reflexivity. Qed.

Example setup_sample :
  let me := setup (C := platform_const)
              [sample_target_media_state; sample_remote_key] __init__ in
  _features me = 16385%N
  /\ supports (_features me) (@SUPPORT_STOP platform_const) = false.
Proof. vm_compute. split; reflexivity. Qed.

(** ** The service queries in the specification's vocabulary *)

Lemma filter_andb {A : Type} (f g : A -> bool) (l : list A) :
  List.filter g (List.filter f l) = List.filter (fun x => f x && g x) l.
Proof.
  induction l as [|x l IH]; simpl; [reflexivity|].
  destruct (f x); simpl; [|exact IH].
  destruct (g x); simpl; [f_equal|]; exact IH.
Qed.

Lemma filter_input_sources (snap : Snapshot) :
  Services.filter (services snap) (Some INPUT_SOURCE) [] (Some (this_tv snap))
  = input_source_siblings snap.
Proof.
  unfold Services.filter, input_source_siblings; simpl.
  rewrite filter_andb. reflexivity.
Qed.

Lemma filter_input_sources_with (snap : Snapshot)
    (kind : CharacteristicsTypes) (v : pyval) :
  Services.filter (services snap) (Some INPUT_SOURCE) [(kind, v)] (Some (this_tv snap))
  = siblings_with snap kind v.
Proof.
  unfold Services.filter, siblings_with, input_source_siblings; simpl.
  rewrite !filter_andb. apply List.filter_ext. intros s.
  unfold is_input_source_of.
  destruct (bool_decide (Service.type s = INPUT_SOURCE)); simpl; [|reflexivity].
  apply andb_comm.
Qed.

Lemma first_input_source_with (snap : Snapshot)
    (kind : CharacteristicsTypes) (v : pyval) :
  Services.first (services snap) (Some INPUT_SOURCE) [(kind, v)] (Some (this_tv snap))
  = head (siblings_with snap kind v).
Proof. unfold Services.first. rewrite filter_input_sources_with. reflexivity. Qed.

Lemma value_of_getitem (s : Service.t) (kind : CharacteristicsTypes)
    (c : Characteristic.t) :
  Service.characteristics_by_type s !! kind = Some c ->
  Service.getitem s kind = Return c /\ Service.value s kind = Characteristic.value c.
Proof. intros H. unfold Service.getitem, Service.value. rewrite H. split; reflexivity. Qed.

(** ** Derived state *)

Lemma dict_get_other (z : Z) :
  z <> CurrentMediaStateValues.PLAYING ->
  z <> CurrentMediaStateValues.PAUSED ->
  z <> CurrentMediaStateValues.STOPPED ->
  dict_get HK_TO_HA_STATE (PyInt z) STATE_OK = STATE_OK.
Proof.
  intros H0 H1 H2. unfold HK_TO_HA_STATE, dict_get, py_eq.
  rewrite !bool_decide_eq_false_2 by congruence. reflexivity.
Qed.

Lemma dict_get_str (s : string) :
  dict_get HK_TO_HA_STATE (PyStr s) STATE_OK = STATE_OK.
Proof. reflexivity. Qed.

(** C1: the state is "problem" whenever the active characteristic is falsy
    or absent, whatever the current media state; otherwise a present media
    state maps PLAYING to "playing", PAUSED to "paused", STOPPED to "idle"
    and every other non-null value to "ok"; an absent media state gives
    "ok". *)
Theorem state_derivation (snap : Snapshot) :
  let tv := this_tv snap in
  let active := Service.value tv ACTIVE in
  let media := Service.value tv CURRENT_MEDIA_STATE in
  (Service.characteristics_by_type tv !! ACTIVE = None -> state snap = STATE_PROBLEM)
  /\ (truthy active = false -> state snap = STATE_PROBLEM)
  /\ (truthy active = true ->
      (media = PyInt CurrentMediaStateValues.PLAYING -> state snap = STATE_PLAYING)
      /\ (media = PyInt CurrentMediaStateValues.PAUSED -> state snap = STATE_PAUSED)
      /\ (media = PyInt CurrentMediaStateValues.STOPPED -> state snap = STATE_IDLE)
      /\ (media <> PyNone ->
          media <> PyInt CurrentMediaStateValues.PLAYING ->
          media <> PyInt CurrentMediaStateValues.PAUSED ->
          media <> PyInt CurrentMediaStateValues.STOPPED ->
          state snap = STATE_OK)
      /\ (media = PyNone -> state snap = STATE_OK)).
Proof.
  intros tv active media.
  assert (Hoff : truthy active = false -> state snap = STATE_PROBLEM).
  { intros H. unfold state. fold tv active. rewrite H. reflexivity. }
  split; [|split; [exact Hoff|]].
  - intros Habs. apply Hoff. unfold active, Service.value. rewrite Habs. reflexivity.
  - intros Hon. unfold state. fold tv active media. rewrite Hon. simpl.
    repeat split.
    + intros ->. reflexivity.
    + intros ->. reflexivity.
    + intros ->. reflexivity.
    + intros Hnone H0 H1 H2. destruct media as [|z|s].
      * congruence.
      * simpl. apply dict_get_other; congruence.
      * reflexivity.
    + intros ->. reflexivity.
Qed.

(** A switched-off television reports a problem although it advertises
    PLAYING; the running one maps STOPPED to idle. *)
Lemma state_derivation_witness :
  state snap_off = STATE_PROBLEM /\ state snap_on = STATE_IDLE.
Proof.
  split.
  - apply (proj1 (proj2 (state_derivation snap_off))). reflexivity.
  - apply (proj2 (proj2 (state_derivation snap_on))); reflexivity.
Defined.

(** ** Source list *)

Lemma source_list_loop_values (l : list Service.t) :
  Forall (has_characteristic CONFIGURED_NAME) l ->
  forall sources,
    source_list_loop l sources
    = Return (sources ++ map (fun s => Service.value s CONFIGURED_NAME) l)%list.
Proof.
  induction 1 as [|s l [c Hc] _ IH]; intros sources; simpl.
  - rewrite app_nil_r. reflexivity.
  - destruct (value_of_getitem s CONFIGURED_NAME c Hc) as [-> ->]. simpl.
    rewrite IH, <- app_assoc. reflexivity.
Qed.

(** An input source without a configured name makes the loop raise. *)
Lemma source_list_loop_missing (l1 l2 : list Service.t) (s : Service.t) :
  Forall (has_characteristic CONFIGURED_NAME) l1 ->
  Service.characteristics_by_type s !! CONFIGURED_NAME = None ->
  forall sources,
    source_list_loop (l1 ++ s :: l2)%list sources = Raise (KeyError CONFIGURED_NAME).
Proof.
  induction 1 as [|s1 l1 [c Hc] _ IH]; intros Hs sources; simpl.
  - unfold Service.getitem. rewrite Hs. reflexivity.
  - destruct (value_of_getitem s1 CONFIGURED_NAME c Hc) as [-> _]. simpl.
    apply IH, Hs.
Qed.

(** C8: the source list holds the configured-name value of every
    input-source sibling parented under the television, in the enumeration
    order of the accessory; its length is the number of those siblings. *)
Theorem source_list_configured_names (snap : Snapshot) :
  Forall (has_characteristic CONFIGURED_NAME) (input_source_siblings snap) ->
  source_list snap
  = Return (map (fun s => Service.value s CONFIGURED_NAME) (input_source_siblings snap))
  /\ exists names,
       source_list snap = Return names
       /\ length names = length (input_source_siblings snap).
Proof.
  intros Hwf. unfold source_list. rewrite filter_input_sources.
  rewrite (source_list_loop_values _ Hwf []). simpl.
  split; [reflexivity|].
  eexists. split; [reflexivity|]. apply length_map.
Qed.

Lemma sample_siblings (active media identifier : pyval) :
  input_source_siblings (sample_snapshot active media identifier) = [hdmi1; hdmi2].
Proof. reflexivity. Qed.

Lemma source_list_configured_names_witness :
  source_list snap_on = Return [PyStr "HDMI 1"; PyStr "HDMI 2"]
  /\ exists names, source_list snap_on = Return names /\ length names = 2%nat.
Proof.
  apply (source_list_configured_names snap_on).
  unfold snap_on. rewrite sample_siblings.
  repeat constructor; eexists; vm_compute; reflexivity.
Defined.

(** ** Current source *)

Lemma source_unset (snap : Snapshot) :
  truthy (Service.value (this_tv snap) ACTIVE_IDENTIFIER) = false ->
  source snap = Return PyNone.
Proof. intros H. unfold source. rewrite H. reflexivity. Qed.

Lemma source_first_match (snap : Snapshot) :
  truthy (Service.value (this_tv snap) ACTIVE_IDENTIFIER) = true ->
  source snap
  = (char <- subscript
               (head (siblings_with snap IDENTIFIER
                        (Service.value (this_tv snap) ACTIVE_IDENTIFIER)))
               CONFIGURED_NAME ;;
     Return (Characteristic.value char))%result.
Proof.
  intros H. unfold source. rewrite H. simpl.
  rewrite first_input_source_with. reflexivity.
Qed.

(** With a set active identifier that no sibling carries, [first] gives
    [None] and the subscript on it raises. *)
Lemma source_no_match (snap : Snapshot) :
  truthy (Service.value (this_tv snap) ACTIVE_IDENTIFIER) = true ->
  siblings_with snap IDENTIFIER (Service.value (this_tv snap) ACTIVE_IDENTIFIER) = [] ->
  source snap = Raise TypeError.
Proof. intros H Hnone. rewrite (source_first_match snap H), Hnone. reflexivity. Qed.

(** C6: the current source is none when the active identifier is absent or
    zero; when it is set and exactly one input-source sibling parented under
    the television carries that identifier, the current source is that
    sibling's configured name. *)
Theorem source_of_active_identifier (snap : Snapshot) :
  let tv := this_tv snap in
  let active_identifier := Service.value tv ACTIVE_IDENTIFIER in
  (Service.characteristics_by_type tv !! ACTIVE_IDENTIFIER = None ->
   source snap = Return PyNone)
  /\ (active_identifier = PyInt 0 -> source snap = Return PyNone)
  /\ (forall (s : Service.t) (name : Characteristic.t),
        truthy active_identifier = true ->
        siblings_with snap IDENTIFIER active_identifier = [s] ->
        Service.characteristics_by_type s !! CONFIGURED_NAME = Some name ->
        source snap = Return (Characteristic.value name)).
Proof.
  intros tv active_identifier. repeat split.
  - intros Habs. apply source_unset. unfold Service.value. fold tv.
    rewrite Habs. reflexivity.
  - intros Hzero. apply source_unset. fold tv active_identifier.
    rewrite Hzero. reflexivity.
  - intros s name Hset Hone Hname.
    rewrite (source_first_match snap Hset). fold tv active_identifier.
    rewrite Hone. simpl.
    destruct (value_of_getitem s CONFIGURED_NAME name Hname) as [-> _].
    reflexivity.
Qed.

Lemma source_of_active_identifier_witness :
  source snap_on = Return (PyStr "HDMI 1").
Proof.
  apply (proj2 (proj2 (source_of_active_identifier snap_on))
           hdmi1 (plain CONFIGURED_NAME (PyStr "HDMI 1"))).
  - reflexivity.
  - vm_compute. reflexivity.
  - vm_compute. reflexivity.
Defined.

(** C2: on the sample television whose active identifier is 7 while its
    inputs carry the identifiers 3 and 4, the lookup finds no sibling and
    [source] raises [TypeError]; it does not return none. *)
Theorem source_stale_identifier_raises :
  Service.value (this_tv snap_stale) ACTIVE_IDENTIFIER = PyInt 7
  /\ siblings_with snap_stale IDENTIFIER (PyInt 7) = []
  /\ source snap_stale = Raise TypeError
  /\ source snap_stale <> Return PyNone.
Proof.
  assert (Hraise : source snap_stale = Raise TypeError).
  { apply source_no_match; vm_compute; reflexivity. }
  split; [vm_compute; reflexivity|].
  split; [vm_compute; reflexivity|].
  split; [exact Hraise|].
  rewrite Hraise. discriminate.
Qed.

(** ** Command handlers *)

(** C4: play (resp. pause) issues nothing when the state already is
    "playing" (resp. "paused"); otherwise it writes target-media-state PLAY
    (resp. PAUSE) when that value is supported, else remote-key PLAY_PAUSE
    when that key is supported, else nothing, and it never raises. *)
Theorem play_and_pause_commands (snap : Snapshot) (w : World) :
  let targets := _supported_target_media_state (self w) in
  let keys := _supported_remote_key (self w) in
  ((state snap = STATE_PLAYING -> async_media_play snap w = (Return tt, w))
   /\ (state snap <> STATE_PLAYING -> TargetMediaStateValues.PLAY ∈ targets ->
       async_media_play snap w
       = (Return tt,
          issue w [(TARGET_MEDIA_STATE, PyInt TargetMediaStateValues.PLAY)]))
   /\ (state snap <> STATE_PLAYING -> TargetMediaStateValues.PLAY ∉ targets ->
       RemoteKeyValues.PLAY_PAUSE ∈ keys ->
       async_media_play snap w
       = (Return tt, issue w [(REMOTE_KEY, PyInt RemoteKeyValues.PLAY_PAUSE)]))
   /\ (state snap <> STATE_PLAYING -> TargetMediaStateValues.PLAY ∉ targets ->
       RemoteKeyValues.PLAY_PAUSE ∉ keys ->
       async_media_play snap w = (Return tt, w)))
  /\
  ((state snap = STATE_PAUSED -> async_media_pause snap w = (Return tt, w))
   /\ (state snap <> STATE_PAUSED -> TargetMediaStateValues.PAUSE ∈ targets ->
       async_media_pause snap w
       = (Return tt,
          issue w [(TARGET_MEDIA_STATE, PyInt TargetMediaStateValues.PAUSE)]))
   /\ (state snap <> STATE_PAUSED -> TargetMediaStateValues.PAUSE ∉ targets ->
       RemoteKeyValues.PLAY_PAUSE ∈ keys ->
       async_media_pause snap w
       = (Return tt, issue w [(REMOTE_KEY, PyInt RemoteKeyValues.PLAY_PAUSE)]))
   /\ (state snap <> STATE_PAUSED -> TargetMediaStateValues.PAUSE ∉ targets ->
       RemoteKeyValues.PLAY_PAUSE ∉ keys ->
       async_media_pause snap w = (Return tt, w))).
Proof.
  intros targets keys. subst targets keys.
  repeat split; intros; run_handler; decide_guards; reflexivity.
Qed.

Lemma play_and_pause_commands_witness :
  async_media_play snap_on (world_of toggle_only)
  = (Return tt, issue (world_of toggle_only) [(REMOTE_KEY, PyInt 11)])
  /\ async_media_pause snap_on (world_of capable)
     = (Return tt, issue (world_of capable) [(TARGET_MEDIA_STATE, PyInt 1)]).
Proof.
  split.
  - apply (proj1 (play_and_pause_commands snap_on (world_of toggle_only))).
    + vm_compute. discriminate.
    + vm_compute. discriminate.
    + vm_compute. reflexivity.
  - apply (proj2 (play_and_pause_commands snap_on (world_of capable))).
    + vm_compute. discriminate.
    + vm_compute. reflexivity.
Defined.

(** C7: stop issues nothing when the state already is "idle"; otherwise it
    writes target-media-state STOP exactly when STOP is supported; without
    that support nothing is written, whatever remote keys are supported. *)
Theorem stop_command (snap : Snapshot) (w : World) :
  let targets := _supported_target_media_state (self w) in
  (state snap = STATE_IDLE -> async_media_stop snap w = (Return tt, w))
  /\ (state snap <> STATE_IDLE -> TargetMediaStateValues.STOP ∈ targets ->
      async_media_stop snap w
      = (Return tt,
         issue w [(TARGET_MEDIA_STATE, PyInt TargetMediaStateValues.STOP)]))
  /\ (state snap <> STATE_IDLE -> TargetMediaStateValues.STOP ∉ targets ->
      async_media_stop snap w = (Return tt, w)).
Proof.
  intros targets. subst targets.
  repeat split; intros; run_handler; decide_guards; reflexivity.
Qed.

Lemma stop_command_witness :
  async_media_stop snap_on (world_of capable) = (Return tt, world_of capable)
  /\ async_media_stop snap_off (world_of toggle_only)
     = (Return tt, world_of toggle_only).
Proof.
  split.
  - apply (proj1 (stop_command snap_on (world_of capable))). reflexivity.
  - apply (proj2 (proj2 (stop_command snap_off (world_of toggle_only)))).
    + vm_compute. discriminate.
    + vm_compute. discriminate.
Defined.

(** C3: when no input-source sibling parented under the television has the
    given configured name, select-source raises the "could not find source"
    error and hands nothing to the transport; when a sibling has it, the
    handler writes active-identifier with that sibling's identifier value. *)
Theorem select_source_command (snap : Snapshot) (name : string) (w : World) :
  (siblings_with snap CONFIGURED_NAME (PyStr name) = [] ->
   async_select_source snap name w
   = (Raise (ValueError ("Could not find source " ++ name)), w))
  /\ (forall (s : Service.t) (others : list Service.t) (identifier : Characteristic.t),
        siblings_with snap CONFIGURED_NAME (PyStr name) = s :: others ->
        Service.characteristics_by_type s !! IDENTIFIER = Some identifier ->
        async_select_source snap name w
        = (Return tt,
           issue w [(ACTIVE_IDENTIFIER, Characteristic.value identifier)])).
Proof.
  unfold async_select_source. rewrite first_input_source_with. split.
  - intros ->. reflexivity.
  - intros s others identifier -> Hid. simpl.
    unfold cmd_bind, cmd_lift.
    destruct (value_of_getitem s IDENTIFIER identifier Hid) as [-> _].
    reflexivity.
Qed.

Lemma select_source_command_witness :
  async_select_source snap_on "HDMI 1" (world_of capable)
  = (Return tt, issue (world_of capable) [(ACTIVE_IDENTIFIER, PyInt 3)])
  /\ async_select_source snap_on "HDMI 9" (world_of capable)
     = (Raise (ValueError "Could not find source HDMI 9"), world_of capable).
Proof.
  split.
  - apply (proj2 (select_source_command snap_on "HDMI 1" (world_of capable))
             hdmi1 [] (plain IDENTIFIER (PyInt 3))).
    + vm_compute. reflexivity.
    + vm_compute. reflexivity.
  - apply (proj1 (select_source_command snap_on "HDMI 9" (world_of capable))).
    vm_compute. reflexivity.
Defined.

(** *** Frame: the handlers leave the entity's fields alone *)

Lemma preserves_ret {A : Type} (a : A) : preserves_self (cmd_ret a).
Proof. intros w. reflexivity. Qed.

Lemma preserves_raise {A : Type} (e : exn) : preserves_self (@cmd_raise A e).
Proof. intros w. reflexivity. Qed.

Lemma preserves_lift {A : Type} (r : result A) : preserves_self (cmd_lift r).
Proof. intros w. reflexivity. Qed.

Lemma preserves_get_self : preserves_self get_self.
Proof. intros w. reflexivity. Qed.

Lemma preserves_put (request : put_request) :
  preserves_self (async_put_characteristics request).
Proof. intros w. reflexivity. Qed.

Lemma preserves_bind {A B : Type} (c : Cmd A) (k : A -> Cmd B) :
  preserves_self c -> (forall a, preserves_self (k a)) -> preserves_self (cmd_bind c k).
Proof.
  intros Hc Hk w. unfold cmd_bind. specialize (Hc w).
  destruct (c w) as [[a|e] w']; simpl in *.
  - rewrite (Hk a w'). exact Hc.
  - exact Hc.
Qed.

Lemma preserves_if {A : Type} (b : bool) (c1 c2 : Cmd A) :
  preserves_self c1 -> preserves_self c2 -> preserves_self (if b then c1 else c2).
Proof. destruct b; auto. Qed.

Create HintDb frame.
#[local] Hint Resolve preserves_ret preserves_raise preserves_lift
  preserves_get_self preserves_put preserves_bind preserves_if : frame.

Lemma play_preserves_self (snap : Snapshot) : preserves_self (async_media_play snap).
Proof. unfold async_media_play. auto 8 with frame. Qed.

Lemma pause_preserves_self (snap : Snapshot) : preserves_self (async_media_pause snap).
Proof. unfold async_media_pause. auto 8 with frame. Qed.

Lemma stop_preserves_self (snap : Snapshot) : preserves_self (async_media_stop snap).
Proof. unfold async_media_stop. auto 8 with frame. Qed.

Lemma select_source_preserves_self (snap : Snapshot) (name : string) :
  preserves_self (async_select_source snap name).
Proof.
  unfold async_select_source.
  destruct (Services.first _ _ _ _); auto 8 with frame.
Qed.

Lemma preserved_capabilities {A : Type} (c : Cmd A) (w : World) :
  preserves_self c -> same_capabilities w (snd (c w)).
Proof. intros H. unfold same_capabilities. rewrite (H w). auto. Qed.

(** C9: whatever the entity's fields and the snapshot are, after play,
    pause, stop or select-source has run (normally or with an error) the
    feature flags, the supported target media states and the supported
    remote keys are what they were before. *)
Theorem handlers_keep_capabilities (snap : Snapshot) (name : string) (w : World) :
  same_capabilities w (snd (async_media_play snap w))
  /\ same_capabilities w (snd (async_media_pause snap w))
  /\ same_capabilities w (snd (async_media_stop snap w))
  /\ same_capabilities w (snd (async_select_source snap name w)).
Proof.
  split; [|split; [|split]]; apply preserved_capabilities.
  - apply play_preserves_self.
  - apply pause_preserves_self.
  - apply stop_preserves_self.
  - apply select_source_preserves_self.
Qed.

(** *** Commands on a television that reports a problem *)

Lemma problem_is_no_target_state :
  STATE_PROBLEM <> STATE_PLAYING
  /\ STATE_PROBLEM <> STATE_PAUSED
  /\ STATE_PROBLEM <> STATE_IDLE.
Proof. repeat split; discriminate. Qed.

(** C10: with a falsy active characteristic the state is "problem", which is
    none of the target states the handlers guard on; so play, pause and stop
    still issue their write whenever the capability is there. *)
Theorem commands_not_suppressed_by_problem (snap : Snapshot) (w : World) :
  truthy (Service.value (this_tv snap) ACTIVE) = false ->
  let targets := _supported_target_media_state (self w) in
  let keys := _supported_remote_key (self w) in
  state snap = STATE_PROBLEM
  /\ (TargetMediaStateValues.PLAY ∈ targets ->
      async_media_play snap w
      = (Return tt,
         issue w [(TARGET_MEDIA_STATE, PyInt TargetMediaStateValues.PLAY)]))
  /\ (TargetMediaStateValues.PLAY ∉ targets -> RemoteKeyValues.PLAY_PAUSE ∈ keys ->
      async_media_play snap w
      = (Return tt, issue w [(REMOTE_KEY, PyInt RemoteKeyValues.PLAY_PAUSE)]))
  /\ (TargetMediaStateValues.PAUSE ∈ targets ->
      async_media_pause snap w
      = (Return tt,
         issue w [(TARGET_MEDIA_STATE, PyInt TargetMediaStateValues.PAUSE)]))
  /\ (TargetMediaStateValues.PAUSE ∉ targets -> RemoteKeyValues.PLAY_PAUSE ∈ keys ->
      async_media_pause snap w
      = (Return tt, issue w [(REMOTE_KEY, PyInt RemoteKeyValues.PLAY_PAUSE)]))
  /\ (TargetMediaStateValues.STOP ∈ targets ->
      async_media_stop snap w
      = (Return tt,
         issue w [(TARGET_MEDIA_STATE, PyInt TargetMediaStateValues.STOP)])).
Proof.
  intros Hoff targets keys. subst targets keys.
  assert (Hstate : state snap = STATE_PROBLEM).
  { unfold state. rewrite Hoff. reflexivity. }
  destruct problem_is_no_target_state as (Hplaying & Hpaused & Hidle).
  rewrite <- Hstate in Hplaying, Hpaused, Hidle.
  split; [exact Hstate|].
  repeat split; intros; run_handler; decide_guards; reflexivity.
Qed.

Lemma commands_not_suppressed_by_problem_witness :
  state snap_off = STATE_PROBLEM
  /\ async_media_stop snap_off (world_of capable)
     = (Return tt, issue (world_of capable) [(TARGET_MEDIA_STATE, PyInt 2)])
  /\ async_media_play snap_off (world_of toggle_only)
     = (Return tt, issue (world_of toggle_only) [(REMOTE_KEY, PyInt 11)]).
Proof.
  pose proof (commands_not_suppressed_by_problem snap_off (world_of capable) eq_refl)
    as (Hstate & _ & _ & _ & _ & Hstop).
  pose proof (commands_not_suppressed_by_problem snap_off (world_of toggle_only) eq_refl)
    as (_ & _ & Hplay & _).
  split; [exact Hstate|]. split.
  - apply Hstop. vm_compute. reflexivity.
  - apply Hplay.
    + vm_compute. discriminate.
    + vm_compute. reflexivity.
Defined.

(** ** Feature discovery *)

Lemma supports_lor (a b m : N) :
  supports (N.lor a b) m = supports a m || supports b m.
Proof.
  unfold supports. rewrite N.land_lor_distr_l.
  destruct (N.eqb_spec (N.land a m) 0) as [Ha|Ha];
    destruct (N.eqb_spec (N.land b m) 0) as [Hb|Hb]; simpl.
  - rewrite Ha, Hb. reflexivity.
  - apply negb_true_iff, N.eqb_neq. intros H. apply N.lor_eq_0_iff in H. tauto.
  - apply negb_true_iff, N.eqb_neq. intros H. apply N.lor_eq_0_iff in H. tauto.
  - apply negb_true_iff, N.eqb_neq. intros H. apply N.lor_eq_0_iff in H. tauto.
Qed.

Lemma supports_nothing (m : N) : supports 0 m = false.
Proof. unfold supports. rewrite N.land_0_l. reflexivity. Qed.

Section Discovery.
Context {C : media_player_const}.
Hypothesis flags : independent_flags C.

Lemma supports_self (m : N) : m <> 0%N -> supports m m = true.
Proof.
  intros H. unfold supports. rewrite N.land_diag.
  apply negb_true_iff, N.eqb_neq, H.
Qed.

Lemma supports_disjoint (a b : N) :
  N.land a b = 0%N -> supports a b = false /\ supports b a = false.
Proof.
  intros H. unfold supports. rewrite (N.land_comm b a), H. split; reflexivity.
Qed.

Lemma supports_mask (f g : feature) :
  supports (mask f) (mask g) = bool_decide (f = g).
Proof.
  destruct flags as ((Hp & Hy & Hs & Ht) & (D1 & D2 & D3 & D4 & D5 & D6)).
  apply supports_disjoint in D1, D2, D3, D4, D5, D6.
  destruct f, g; simpl;
    first [ apply supports_self; assumption | tauto ].
Qed.

Lemma setup_characteristic_supports (me : HomeKitTelevision)
    (char : Characteristic.t) (f : feature) :
  supports (_features (_setup_characteristic me char)) (mask f)
  = supports (_features me) (mask f) || enables f char.
Proof.
  unfold _setup_characteristic, enables.
  destruct (Characteristic.type char);
    try (rewrite orb_false_r; reflexivity).
  - unfold _setup_target_media_state.
    set (supported := clamp_enum_to_char TargetMediaStateValues.members char).
    cbv zeta. project_fields.
    destruct (bool_decide (TargetMediaStateValues.PAUSE ∈ supported));
      project_fields;
      destruct (bool_decide (TargetMediaStateValues.PLAY ∈ supported));
      project_fields;
      destruct (bool_decide (TargetMediaStateValues.STOP ∈ supported));
      project_fields; fold_masks; rewrite ?supports_lor, ?supports_mask;
      destruct f; simpl; rewrite ?orb_false_r, ?orb_true_r; reflexivity.
  - unfold _setup_remote_key.
    set (supported := clamp_enum_to_char RemoteKeyValues.members char).
    cbv zeta. project_fields.
    destruct (bool_decide (RemoteKeyValues.PLAY_PAUSE ∈ supported));
      project_fields; fold_masks; rewrite ?supports_lor, ?supports_mask;
      destruct f; simpl; rewrite ?orb_false_r, ?orb_true_r; reflexivity.
  - unfold _setup_active_identifier. project_fields. fold_masks.
    rewrite supports_lor, supports_mask.
    destruct f; simpl; rewrite ?orb_false_r, ?orb_true_r; reflexivity.
Qed.

Lemma setup_supports (chars : list Characteristic.t) (f : feature) :
  forall me,
    supports (_features (setup chars me)) (mask f)
    = supports (_features me) (mask f) || existsb (enables f) chars.
Proof.
  unfold setup. induction chars as [|char chars IH]; intros me; simpl.
  - rewrite orb_false_r. reflexivity.
  - rewrite IH, setup_characteristic_supports, orb_assoc. reflexivity.
Qed.

Lemma setup_from_init (chars : list Characteristic.t) (f : feature) :
  supports (supported_features (setup chars __init__)) (mask f) = true
  <-> exists char, In char chars /\ enables f char = true.
Proof.
  unfold supported_features. rewrite setup_supports.
  change (_features __init__) with 0%N.
  rewrite supports_nothing, orb_false_l. apply existsb_exists.
Qed.

End Discovery.

Lemma enables_select_source (char : Characteristic.t) :
  enables FeatureSelectSource char = true
  <-> Characteristic.type char = ACTIVE_IDENTIFIER.
Proof.
  unfold enables. destruct (Characteristic.type char);
    split; intros H; try discriminate; reflexivity.
Qed.

Lemma enables_stop (char : Characteristic.t) :
  enables FeatureStop char = true
  <-> advertises TARGET_MEDIA_STATE TargetMediaStateValues.members
        TargetMediaStateValues.STOP char.
Proof.
  unfold enables, advertises. destruct (Characteristic.type char);
    rewrite ?bool_decide_eq_true; intuition congruence.
Qed.

Lemma enables_play (char : Characteristic.t) :
  enables FeaturePlay char = true
  <-> advertises TARGET_MEDIA_STATE TargetMediaStateValues.members
        TargetMediaStateValues.PLAY char
      \/ advertises REMOTE_KEY RemoteKeyValues.members
           RemoteKeyValues.PLAY_PAUSE char.
Proof.
  unfold enables, advertises. destruct (Characteristic.type char);
    rewrite ?bool_decide_eq_true; intuition congruence.
Qed.

Lemma enables_pause (char : Characteristic.t) :
  enables FeaturePause char = true
  <-> advertises TARGET_MEDIA_STATE TargetMediaStateValues.members
        TargetMediaStateValues.PAUSE char
      \/ advertises REMOTE_KEY RemoteKeyValues.members
           RemoteKeyValues.PLAY_PAUSE char.
Proof.
  unfold enables, advertises. destruct (Characteristic.type char);
    rewrite ?bool_decide_eq_true; intuition congruence.
Qed.

Lemma some_char_or {A : Type} (l : list A) (P Q : A -> Prop) :
  (exists x, In x l /\ (P x \/ Q x))
  <-> (exists x, In x l /\ P x) \/ (exists x, In x l /\ Q x).
Proof. firstorder. Qed.

Lemma some_char_iff {A : Type} (l : list A) (P Q : A -> Prop) :
  (forall x, P x <-> Q x) ->
  (exists x, In x l /\ P x) <-> (exists x, In x l /\ Q x).
Proof. intros H. split; intros (x & Hin & Hx); exists x; split; auto; apply H, Hx. Qed.

(** C5: after the setup callbacks have run, from a fresh entity, over the
    advertised characteristics: select-source is on exactly when an active
    identifier is among them; stop is on exactly when the target media state
    advertises STOP; play (resp. pause) is on exactly when the target media
    state advertises PLAY (resp. PAUSE) or the remote key advertises
    PLAY_PAUSE, so the toggle key switches both on. *)
Theorem setup_feature_flags (C : media_player_const)
    (chars : list Characteristic.t) :
  independent_flags C ->
  let me := setup chars __init__ in
  let on (m : N) := supports (supported_features me) m = true in
  let some_char (P : Characteristic.t -> Prop) :=
    exists char, In char chars /\ P char in
  (on SUPPORT_SELECT_SOURCE
   <-> some_char (fun char => Characteristic.type char = ACTIVE_IDENTIFIER))
  /\ (on SUPPORT_STOP
      <-> some_char (advertises TARGET_MEDIA_STATE TargetMediaStateValues.members
                       TargetMediaStateValues.STOP))
  /\ (on SUPPORT_PLAY
      <-> some_char (advertises TARGET_MEDIA_STATE TargetMediaStateValues.members
                       TargetMediaStateValues.PLAY)
          \/ some_char (advertises REMOTE_KEY RemoteKeyValues.members
                          RemoteKeyValues.PLAY_PAUSE))
  /\ (on SUPPORT_PAUSE
      <-> some_char (advertises TARGET_MEDIA_STATE TargetMediaStateValues.members
                       TargetMediaStateValues.PAUSE)
          \/ some_char (advertises REMOTE_KEY RemoteKeyValues.members
                          RemoteKeyValues.PLAY_PAUSE)).
Proof.
  intros Hflags me on some_char. subst me on some_char. cbv beta.
  split; [|split; [|split]].
  - rewrite (setup_from_init Hflags chars FeatureSelectSource).
    apply some_char_iff, enables_select_source.
  - rewrite (setup_from_init Hflags chars FeatureStop).
    apply some_char_iff, enables_stop.
  - rewrite (setup_from_init Hflags chars FeaturePlay), <- some_char_or.
    apply some_char_iff, enables_play.
  - rewrite (setup_from_init Hflags chars FeaturePause), <- some_char_or.
    apply some_char_iff, enables_pause.
Qed.

Lemma platform_flags_independent : independent_flags platform_const.
Proof. vm_compute. repeat split; discriminate. Qed.

(** On the sample television source selection comes on and stop stays off. *)
Lemma setup_feature_flags_witness :
  supports (supported_features (setup (C := platform_const) sample_chars __init__))
    (@SUPPORT_SELECT_SOURCE platform_const) = true
  /\ ~ supports (supported_features (setup (C := platform_const) sample_chars __init__))
         (@SUPPORT_STOP platform_const) = true.
Proof.
  pose proof (setup_feature_flags platform_const sample_chars
                platform_flags_independent) as (Hselect & Hstop & _).
  split.
  - apply Hselect. exists (plain ACTIVE_IDENTIFIER (PyInt 3)).
    split; [|reflexivity]. simpl. tauto.
  - intros Hon. apply Hstop in Hon. destruct Hon as (char & Hin & Hkind & Hmember).
    simpl in Hin.
    destruct Hin as [<-|[<-|[<-|[<-|[]]]]]; try discriminate Hkind.
    vm_compute in Hmember. discriminate Hmember.
Defined.

(** * Further properties of the entity *)

(** ** The range of the derived state *)

(** X1: whatever the accessory reports, the state is one of problem, ok,
    playing, paused and idle. *)
Theorem state_in_STATES (snap : Snapshot) : In (state snap) STATES.
Proof.
  unfold state, STATES.
  destruct (truthy (Service.value (this_tv snap) ACTIVE)); simpl; [|tauto].
  destruct (Service.value (this_tv snap) CURRENT_MEDIA_STATE) as [|z|s]; simpl.
  - tauto.
  - unfold py_eq. repeat case_bool_decide; simpl; tauto.
  - tauto.
Qed.

(** ** What a command hands to the transport *)

Lemma appends_nothing (w : World) : appends_at_most_one w w.
Proof.
  exists []. rewrite app_nil_r. repeat split; [simpl; lia | constructor].
Qed.

Lemma appends_issue (w : World) (kind : CharacteristicsTypes) (v : pyval) :
  appends_at_most_one w (issue w [(kind, v)]).
Proof.
  exists [[(kind, v)]]. repeat split; [simpl; lia | repeat constructor].
Qed.

Lemma issue_changes_log (w : World) (request : put_request) :
  puts (issue w request) <> puts w.
Proof.
  unfold issue. simpl. intros H. apply (f_equal (@length _)) in H.
  rewrite length_app in H. simpl in H. lia.
Qed.

Lemma play_outcome (snap : Snapshot) (w : World) :
  async_media_play snap w = (Return tt, w)
  \/ (exists kind v, async_media_play snap w = (Return tt, issue w [(kind, v)])).
Proof.
  run_handler.
  destruct (String.eqb _ _); [left; reflexivity|].
  destruct (bool_decide _); [right; eauto|].
  destruct (bool_decide _); [right; eauto|left; reflexivity].
Qed.

Lemma pause_outcome (snap : Snapshot) (w : World) :
  async_media_pause snap w = (Return tt, w)
  \/ (exists kind v, async_media_pause snap w = (Return tt, issue w [(kind, v)])).
Proof.
  run_handler.
  destruct (String.eqb _ _); [left; reflexivity|].
  destruct (bool_decide _); [right; eauto|].
  destruct (bool_decide _); [right; eauto|left; reflexivity].
Qed.

Lemma stop_outcome (snap : Snapshot) (w : World) :
  async_media_stop snap w = (Return tt, w)
  \/ (exists kind v, async_media_stop snap w = (Return tt, issue w [(kind, v)])).
Proof.
  run_handler.
  destruct (String.eqb _ _); [left; reflexivity|].
  destruct (bool_decide _); [right; eauto|left; reflexivity].
Qed.

(** What select-source can end in: the two errors leave the world as it
    was, success issues the identifier of a sibling with that name. *)
Lemma select_source_outcome (snap : Snapshot) (name : string) (w : World) :
  (siblings_with snap CONFIGURED_NAME (PyStr name) = []
   /\ async_select_source snap name w
      = (Raise (ValueError ("Could not find source " ++ name)), w))
  \/ (exists s others,
        siblings_with snap CONFIGURED_NAME (PyStr name) = s :: others
        /\ Service.characteristics_by_type s !! IDENTIFIER = None
        /\ async_select_source snap name w = (Raise (KeyError IDENTIFIER), w))
  \/ (exists s others identifier,
        siblings_with snap CONFIGURED_NAME (PyStr name) = s :: others
        /\ Service.characteristics_by_type s !! IDENTIFIER = Some identifier
        /\ async_select_source snap name w
           = (Return tt,
              issue w [(ACTIVE_IDENTIFIER, Characteristic.value identifier)])).
Proof.
  unfold async_select_source. rewrite first_input_source_with.
  destruct (siblings_with snap CONFIGURED_NAME (PyStr name)) as [|s others].
  - left. split; reflexivity.
  - right. simpl. unfold cmd_bind, cmd_lift, Service.getitem.
    destruct (Service.characteristics_by_type s !! IDENTIFIER) as [identifier|] eqn:E.
    + right. exists s, others, identifier.
      split; [reflexivity|]. split; [exact E|reflexivity].
    + left. exists s, others.
      split; [reflexivity|]. split; [exact E|reflexivity].
Qed.

(** X2: each of play, pause, stop and select-source keeps the requests
    already issued and adds at most one, which writes one characteristic. *)
Theorem handlers_append_at_most_one (snap : Snapshot) (name : string) (w : World) :
  appends_at_most_one w (snd (async_media_play snap w))
  /\ appends_at_most_one w (snd (async_media_pause snap w))
  /\ appends_at_most_one w (snd (async_media_stop snap w))
  /\ appends_at_most_one w (snd (async_select_source snap name w)).
Proof.
  split; [|split; [|split]].
  - destruct (play_outcome snap w) as [->|(kind & v & ->)];
      [apply appends_nothing | apply appends_issue].
  - destruct (pause_outcome snap w) as [->|(kind & v & ->)];
      [apply appends_nothing | apply appends_issue].
  - destruct (stop_outcome snap w) as [->|(kind & v & ->)];
      [apply appends_nothing | apply appends_issue].
  - destruct (select_source_outcome snap name w)
      as [(_ & ->)|[(s & others & _ & _ & ->)|(s & others & c & _ & _ & ->)]];
      [apply appends_nothing | apply appends_nothing | apply appends_issue].
Qed.



(** ** Source list, current source and source selection together *)

Lemma sibling_with_iff (snap : Snapshot) (kind : CharacteristicsTypes)
    (v : pyval) (s : Service.t) :
  In s (siblings_with snap kind v)
  <-> In s (input_source_siblings snap) /\ Service.value s kind = v.
Proof.
  unfold siblings_with, py_eq. rewrite filter_In, bool_decide_eq_true. tauto.
Qed.

Lemma first_sibling_with (snap : Snapshot) (kind : CharacteristicsTypes)
    (v : pyval) (s : Service.t) :
  In s (input_source_siblings snap) ->
  Service.value s kind = v ->
  exists s' others,
    siblings_with snap kind v = s' :: others
    /\ In s' (input_source_siblings snap)
    /\ Service.value s' kind = v.
Proof.
  intros Hin Hv.
  destruct (siblings_with snap kind v) as [|s' others] eqn:E.
  - assert (H : In s (siblings_with snap kind v)) by (apply sibling_with_iff; auto).
    rewrite E in H. destruct H.
  - exists s', others. split; [reflexivity|].
    apply (sibling_with_iff snap kind v s'). rewrite E. left. reflexivity.
Qed.

Lemma value_present (s : Service.t) (kind : CharacteristicsTypes) (v : pyval) :
  Service.value s kind = v ->
  v <> PyNone ->
  exists c,
    Service.characteristics_by_type s !! kind = Some c
    /\ Characteristic.value c = v.
Proof.
  unfold Service.value. intros Hv Hnone.
  destruct (Service.characteristics_by_type s !! kind) as [c|].
  - exists c. auto.
  - congruence.
Qed.

Lemma truthy_not_none (v : pyval) : truthy v = true -> v <> PyNone.
Proof. intros H ->. discriminate H. Qed.

Lemma source_list_loop_raises (l : list Service.t) :
  Exists (fun s => Service.characteristics_by_type s !! CONFIGURED_NAME = None) l ->
  forall sources, source_list_loop l sources = Raise (KeyError CONFIGURED_NAME).
Proof.
  induction l as [|s l IH]; intros Hex sources.
  - inversion Hex.
  - simpl. unfold Service.getitem.
    destruct (Service.characteristics_by_type s !! CONFIGURED_NAME) as [c|] eqn:E;
      simpl; [|reflexivity].
    apply IH. inversion Hex; subst; [congruence|assumption].
Qed.

Lemma named_or_not (l : list Service.t) :
  Forall (has_characteristic CONFIGURED_NAME) l
  \/ Exists (fun s => Service.characteristics_by_type s !! CONFIGURED_NAME = None) l.
Proof.
  induction l as [|s l [IH|IH]].
  - left. constructor.
  - destruct (Service.characteristics_by_type s !! CONFIGURED_NAME) as [c|] eqn:E.
    + left. constructor; [exists c; exact E|exact IH].
    + right. left. exact E.
  - right. right. exact IH.
Qed.

Lemma source_list_returned (snap : Snapshot) (names : list pyval) :
  source_list snap = Return names ->
  Forall (has_characteristic CONFIGURED_NAME) (input_source_siblings snap)
  /\ names = map (fun s => Service.value s CONFIGURED_NAME) (input_source_siblings snap).
Proof.
  unfold source_list. rewrite filter_input_sources. intros H.
  destruct (named_or_not (input_source_siblings snap)) as [Hall|Hex].
  - split; [exact Hall|].
    rewrite (source_list_loop_values _ Hall []) in H. simpl in H. congruence.
  - rewrite (source_list_loop_raises _ Hex []) in H. discriminate H.
Qed.

(** X4: the source list is all or nothing. One input-source sibling without
    a configured name makes the whole property raise the key error, and a
    list that is returned has one entry per sibling. *)
Theorem source_list_all_or_nothing (snap : Snapshot) :
  (Exists (fun s => Service.characteristics_by_type s !! CONFIGURED_NAME = None)
     (input_source_siblings snap) ->
   source_list snap = Raise (KeyError CONFIGURED_NAME))
  /\ (forall names,
        source_list snap = Return names ->
        Forall (has_characteristic CONFIGURED_NAME) (input_source_siblings snap)
        /\ length names = length (input_source_siblings snap)).
Proof.
  split.
  - intros Hex. unfold source_list. rewrite filter_input_sources.
    apply source_list_loop_raises, Hex.
  - intros names H. apply source_list_returned in H as [Hall ->].
    split; [exact Hall|]. apply length_map.
Qed.

Lemma source_list_all_or_nothing_witness :
  source_list snap_broken = Raise (KeyError CONFIGURED_NAME).
Proof.
  apply (proj1 (source_list_all_or_nothing snap_broken)).
  change (input_source_siblings snap_broken) with [hdmi1; nameless; numberless].
  right. left. vm_compute. reflexivity.
Defined.

(** What a returned current source is: none for an unset identifier, else
    the configured name of the first sibling carrying the identifier. *)
Lemma source_returned (snap : Snapshot) (v : pyval) :
  source snap = Return v ->
  (truthy (Service.value (this_tv snap) ACTIVE_IDENTIFIER) = false /\ v = PyNone)
  \/ (exists s name,
        In s (input_source_siblings snap)
        /\ Service.value s IDENTIFIER = Service.value (this_tv snap) ACTIVE_IDENTIFIER
        /\ Service.characteristics_by_type s !! CONFIGURED_NAME = Some name
        /\ Characteristic.value name = v).
Proof.
  intros H.
  destruct (truthy (Service.value (this_tv snap) ACTIVE_IDENTIFIER)) eqn:Hset.
  - right. rewrite (source_first_match snap Hset) in H.
    destruct (siblings_with snap IDENTIFIER
                (Service.value (this_tv snap) ACTIVE_IDENTIFIER))
      as [|s others] eqn:E; simpl in H; [discriminate H|].
    assert (Hs : In s (siblings_with snap IDENTIFIER
                         (Service.value (this_tv snap) ACTIVE_IDENTIFIER)))
      by (rewrite E; left; reflexivity).
    apply sibling_with_iff in Hs as [Hin Hid].
    unfold Service.getitem in H.
    destruct (Service.characteristics_by_type s !! CONFIGURED_NAME) as [name|] eqn:En;
      simpl in H; [|discriminate H].
    exists s, name. repeat split; try assumption. congruence.
  - left. rewrite (source_unset snap Hset) in H. split; congruence.
Qed.

(** X5: a current source that is returned is either none, for an unset
    active identifier, or the configured name of an input-source sibling
    parented under the television whose identifier equals the active
    identifier; no other name is ever reported. *)
Theorem source_is_a_matching_sibling (snap : Snapshot) (v : pyval) :
  source snap = Return v ->
  (truthy (Service.value (this_tv snap) ACTIVE_IDENTIFIER) = false /\ v = PyNone)
  \/ (exists s,
        In s (input_source_siblings snap)
        /\ Service.value s IDENTIFIER = Service.value (this_tv snap) ACTIVE_IDENTIFIER
        /\ Service.value s CONFIGURED_NAME = v).
Proof.
  intros H. apply source_returned in H as [H|(s & name & Hin & Hid & Hname & Hv)].
  - left. exact H.
  - right. exists s. repeat split; try assumption.
    destruct (value_of_getitem s CONFIGURED_NAME name Hname) as [_ ->]. exact Hv.
Qed.

Lemma source_is_a_matching_sibling_witness :
  exists s,
    In s (input_source_siblings snap_on)
    /\ Service.value s IDENTIFIER = PyInt 3
    /\ Service.value s CONFIGURED_NAME = PyStr "HDMI 1".
Proof.
  destruct (source_is_a_matching_sibling snap_on (PyStr "HDMI 1"))
    as [[_ Hnone]|Hs].
  - vm_compute. reflexivity.
  - discriminate Hnone.
  - exact Hs.
Defined.

(** X6: when both properties return, the current source is none or one of
    the entries of the source list. *)
Theorem source_in_source_list (snap : Snapshot) (v : pyval) (names : list pyval) :
  source snap = Return v ->
  source_list snap = Return names ->
  v = PyNone \/ In v names.
Proof.
  intros Hsource Hlist.
  apply source_returned in Hsource
    as [[_ Hnone]|(s & name & Hin & _ & Hname & Hv)].
  - left. exact Hnone.
  - right. apply source_list_returned in Hlist as [_ ->].
    apply in_map_iff. exists s. split; [|exact Hin].
    destruct (value_of_getitem s CONFIGURED_NAME name Hname) as [_ ->]. exact Hv.
Qed.

Lemma source_in_source_list_witness :
  PyStr "HDMI 1" = PyNone \/ In (PyStr "HDMI 1") [PyStr "HDMI 1"; PyStr "HDMI 2"].
Proof.
  apply (source_in_source_list snap_on); vm_compute; reflexivity.
Defined.

Lemma named_sibling_iff (snap : Snapshot) (name : string) :
  In (PyStr name)
    (map (fun s => Service.value s CONFIGURED_NAME) (input_source_siblings snap))
  <-> siblings_with snap CONFIGURED_NAME (PyStr name) <> [].
Proof.
  rewrite in_map_iff. split.
  - intros (s & Hname & Hin).
    destruct (first_sibling_with snap CONFIGURED_NAME (PyStr name) s Hin Hname)
      as (s' & others & -> & _). discriminate.
  - intros Hne.
    destruct (siblings_with snap CONFIGURED_NAME (PyStr name)) as [|s others] eqn:E;
      [congruence|].
    assert (Hs : In s (siblings_with snap CONFIGURED_NAME (PyStr name)))
      by (rewrite E; left; reflexivity).
    apply sibling_with_iff in Hs as [Hin Hname]. exists s. auto.
Qed.

(** X7: select-source raises the "could not find source" error exactly when
    the name is not the configured name of any input-source sibling
    parented under the television. *)
Theorem select_source_not_found_iff (snap : Snapshot) (name : string) (w : World) :
  fst (async_select_source snap name w)
  = Raise (ValueError ("Could not find source " ++ name))
  <-> ~ In (PyStr name)
        (map (fun s => Service.value s CONFIGURED_NAME) (input_source_siblings snap)).
Proof.
  rewrite named_sibling_iff.
  destruct (select_source_outcome snap name w)
    as [(Hnone & ->)|[(s & others & Hs & _ & ->)|(s & others & c & Hs & _ & ->)]];
    simpl; rewrite ?Hnone, ?Hs; split; intros H;
    try discriminate H; try reflexivity; try (intros Hne; congruence).
  - exfalso. apply H. discriminate.
  - exfalso. apply H. discriminate.
Qed.



(** X9: select, then read back. When select-source finds a sibling of the
    given name with a truthy identifier, it writes that identifier; once the
    television reports it as its active identifier, with the same input
    sources, the current source is the selected name, provided every sibling
    carrying that identifier carries that name. *)
Theorem select_then_source (snap snap' : Snapshot) (name : string) (w : World)
    (s : Service.t) (others : list Service.t) (identifier : Characteristic.t) :
  siblings_with snap CONFIGURED_NAME (PyStr name) = s :: others ->
  Service.characteristics_by_type s !! IDENTIFIER = Some identifier ->
  truthy (Characteristic.value identifier) = true ->
  input_source_siblings snap' = input_source_siblings snap ->
  Service.value (this_tv snap') ACTIVE_IDENTIFIER = Characteristic.value identifier ->
  (forall s',
     In s' (input_source_siblings snap) ->
     Service.value s' IDENTIFIER = Characteristic.value identifier ->
     Service.value s' CONFIGURED_NAME = PyStr name) ->
  async_select_source snap name w
  = (Return tt, issue w [(ACTIVE_IDENTIFIER, Characteristic.value identifier)])
  /\ source snap' = Return (PyStr name).
Proof.
  intros Hfirst Hid Hset Hsame Hactive Hunique. split.
  - unfold async_select_source. rewrite first_input_source_with, Hfirst. simpl.
    unfold cmd_bind, cmd_lift.
    destruct (value_of_getitem s IDENTIFIER identifier Hid) as [-> _].
    reflexivity.
  - assert (Hs : In s (siblings_with snap CONFIGURED_NAME (PyStr name)))
      by (rewrite Hfirst; left; reflexivity).
    apply sibling_with_iff in Hs as [Hin _].
    destruct (value_of_getitem s IDENTIFIER identifier Hid) as [_ Hvalue].
    rewrite <- Hsame in Hin.
    destruct (first_sibling_with snap' IDENTIFIER (Characteristic.value identifier)
                s Hin Hvalue) as (s' & rest & Hhead & Hin' & Hid').
    rewrite Hsame in Hin'.
    destruct (value_present s' CONFIGURED_NAME (PyStr name)
                (Hunique s' Hin' Hid')) as (c & Hc & Hname); [discriminate|].
    rewrite source_first_match by (rewrite Hactive; exact Hset).
    rewrite Hactive, Hhead. simpl.
    destruct (value_of_getitem s' CONFIGURED_NAME c Hc) as [-> _].
    simpl. rewrite Hname. reflexivity.
Qed.

Lemma select_then_source_witness :
  async_select_source snap_on "HDMI 2" (world_of capable)
  = (Return tt, issue (world_of capable) [(ACTIVE_IDENTIFIER, PyInt 4)])
  /\ source snap_hdmi2 = Return (PyStr "HDMI 2").
Proof.
  apply (select_then_source snap_on snap_hdmi2 "HDMI 2" (world_of capable)
           hdmi2 [] (plain IDENTIFIER (PyInt 4))).
  - vm_compute. reflexivity.
  - vm_compute. reflexivity.
  - reflexivity.
  - reflexivity.
  - vm_compute. reflexivity.
  - change (input_source_siblings snap_on) with [hdmi1; hdmi2].
    intros s' [<-|[<-|[]]] H; [vm_compute in H; discriminate H|].
    vm_compute. reflexivity.
Defined.

(** ** The setup callbacks as a whole *)

Section Callbacks.
Context {C : media_player_const}.

Lemma setup_characteristic_fields (me : HomeKitTelevision) (char : Characteristic.t) :
  _state (_setup_characteristic me char) = _state me
  /\ _features (_setup_characteristic me char)
     = N.lor (_features me) (contribution char)
  /\ _supported_target_media_state (_setup_characteristic me char)
     = (if bool_decide (Characteristic.type char = TARGET_MEDIA_STATE)
        then clamp_enum_to_char TargetMediaStateValues.members char
        else _supported_target_media_state me)
  /\ _supported_remote_key (_setup_characteristic me char)
     = (if bool_decide (Characteristic.type char = REMOTE_KEY)
        then clamp_enum_to_char RemoteKeyValues.members char
        else _supported_remote_key me).
Proof.
  unfold _setup_characteristic, contribution.
  destruct (Characteristic.type char); cbn [bool_decide decide_rel];
    try (rewrite N.lor_0_r; repeat split; reflexivity).
  - unfold _setup_target_media_state.
    set (supported := clamp_enum_to_char TargetMediaStateValues.members char).
    cbv zeta. project_fields.
    destruct (bool_decide (TargetMediaStateValues.PAUSE ∈ supported));
      project_fields;
      destruct (bool_decide (TargetMediaStateValues.PLAY ∈ supported));
      project_fields;
      destruct (bool_decide (TargetMediaStateValues.STOP ∈ supported));
      project_fields;
      rewrite ?N.lor_0_r, ?N.lor_0_l, ?N.lor_assoc; repeat split; reflexivity.
  - unfold _setup_remote_key.
    set (supported := clamp_enum_to_char RemoteKeyValues.members char).
    cbv zeta. project_fields.
    destruct (bool_decide (RemoteKeyValues.PLAY_PAUSE ∈ supported));
      project_fields; rewrite ?N.lor_0_r; repeat split; reflexivity.
  - unfold _setup_active_identifier. project_fields. repeat split; reflexivity.
Qed.

Lemma setup_fields (chars : list Characteristic.t) :
  forall me,
    _state (setup chars me) = _state me
    /\ _features (setup chars me) = N.lor (_features me) (all_contributions chars)
    /\ _supported_target_media_state (setup chars me)
       = last_clamp TARGET_MEDIA_STATE TargetMediaStateValues.members chars
           (_supported_target_media_state me)
    /\ _supported_remote_key (setup chars me)
       = last_clamp REMOTE_KEY RemoteKeyValues.members chars
           (_supported_remote_key me).
Proof.
  unfold setup, last_clamp.
  induction chars as [|char chars IH]; intros me; simpl.
  - rewrite N.lor_0_r. repeat split; reflexivity.
  - destruct (IH (_setup_characteristic me char)) as (-> & -> & -> & ->).
    destruct (setup_characteristic_fields me char) as (-> & -> & -> & ->).
    rewrite N.lor_assoc. repeat split; reflexivity.
Qed.

Lemma all_contributions_permutation (chars chars' : list Characteristic.t) :
  Permutation chars chars' -> all_contributions chars = all_contributions chars'.
Proof.
  induction 1 as [|char l l' _ IH|a b l|l l' l'' _ IH1 _ IH2]; simpl.
  - reflexivity.
  - rewrite IH. reflexivity.
  - rewrite !N.lor_assoc, (N.lor_comm (contribution b)). reflexivity.
  - congruence.
Qed.

(** X10: the callbacks only ever switch feature bits on: every bit set
    before a setup run is still set after it, whatever is advertised. *)
Theorem setup_keeps_feature_bits (chars : list Characteristic.t)
    (me : HomeKitTelevision) (n : N) :
  N.testbit (_features me) n = true ->
  N.testbit (supported_features (setup chars me)) n = true.
Proof.
  intros H. unfold supported_features.
  destruct (setup_fields chars me) as (_ & -> & _).
  rewrite N.lor_spec, H. reflexivity.
Qed.

(** X11: the features do not depend on the order in which the accessory
    enumerates its characteristics. *)
Theorem setup_features_order_independent (chars chars' : list Characteristic.t)
    (me : HomeKitTelevision) :
  Permutation chars chars' ->
  supported_features (setup chars me) = supported_features (setup chars' me).
Proof.
  intros H. unfold supported_features.
  destruct (setup_fields chars me) as (_ & -> & _).
  destruct (setup_fields chars' me) as (_ & -> & _).
  rewrite (all_contributions_permutation chars chars' H). reflexivity.
Qed.

End Callbacks.

Lemma setup_keeps_feature_bits_witness :
  N.testbit
    (supported_features
       (setup (C := platform_const) sample_chars (with_features __init__ 4096)))
    12 = true.
Proof.
  apply (setup_keeps_feature_bits (C := platform_const) sample_chars
           (with_features __init__ 4096) 12).
  reflexivity.
Defined.

Lemma setup_features_order_independent_witness :
  supported_features (setup (C := platform_const) sample_chars __init__)
  = supported_features (setup (C := platform_const) (rev sample_chars) __init__).
Proof.
  apply (setup_features_order_independent (C := platform_const)
           sample_chars (rev sample_chars) __init__).
  apply Permutation_rev.
Defined.

(** *** Running the callbacks twice *)

Lemma last_clamp_cases (kind : CharacteristicsTypes) (enum : gset Z)
    (chars : list Characteristic.t) :
  (forall init, last_clamp kind enum chars init = init)
  \/ (exists supported, forall init, last_clamp kind enum chars init = supported).
Proof.
  unfold last_clamp. induction chars as [|char chars [IH|[supported IH]]]; simpl.
  - left. reflexivity.
  - destruct (bool_decide (Characteristic.type char = kind)).
    + right. eexists. intros init. apply IH.
    + left. intros init. apply IH.
  - right. exists supported. intros init. apply IH.
Qed.

Lemma last_clamp_twice (kind : CharacteristicsTypes) (enum : gset Z)
    (chars : list Characteristic.t) (init : gset Z) :
  last_clamp kind enum chars (last_clamp kind enum chars init)
  = last_clamp kind enum chars init.
Proof.
  destruct (last_clamp_cases kind enum chars) as [H|[supported H]].
  - rewrite !H. reflexivity.
  - rewrite !H. reflexivity.
Qed.

Lemma entity_eq (a b : HomeKitTelevision) :
  _state a = _state b ->
  _features a = _features b ->
  _supported_target_media_state a = _supported_target_media_state b ->
  _supported_remote_key a = _supported_remote_key b ->
  a = b.
Proof. destruct a, b; simpl; intros; subst; reflexivity. Qed.

(** X12: a second setup run over the same characteristics changes nothing:
    neither the features nor the supported value sets. *)
Theorem setup_idempotent (C : media_player_const) (chars : list Characteristic.t)
    (me : HomeKitTelevision) :
  setup chars (setup chars me) = setup chars me.
Proof.
  destruct (setup_fields chars (setup chars me)) as (Hs2 & Hf2 & Ht2 & Hk2).
  destruct (setup_fields chars me) as (Hs & Hf & Ht & Hk).
  apply entity_eq.
  - rewrite Hs2. reflexivity.
  - rewrite Hf2, Hf, <- N.lor_assoc, N.lor_diag. reflexivity.
  - rewrite Ht2, Ht. apply last_clamp_twice.
  - rewrite Hk2, Hk. apply last_clamp_twice.
Qed.

(** *** Announced features and effective commands *)

Lemma last_clamp_without (kind : CharacteristicsTypes) (enum : gset Z)
    (chars : list Characteristic.t) :
  (forall char, In char chars -> Characteristic.type char <> kind) ->
  forall init, last_clamp kind enum chars init = init.
Proof.
  unfold last_clamp. induction chars as [|char chars IH]; intros Hnone init; simpl.
  - reflexivity.
  - rewrite bool_decide_eq_false_2 by (apply Hnone; left; reflexivity).
    apply IH. intros c Hc. apply Hnone. right. exact Hc.
Qed.

Lemma last_clamp_unique (kind : CharacteristicsTypes) (enum : gset Z)
    (chars : list Characteristic.t) (char : Characteristic.t) :
  List.NoDup (map Characteristic.type chars) ->
  In char chars ->
  Characteristic.type char = kind ->
  forall init, last_clamp kind enum chars init = clamp_enum_to_char enum char.
Proof.
  intros Hnodup Hin Hkind init.
  destruct (in_split _ _ Hin) as (l1 & l2 & ->).
  rewrite map_app in Hnodup. simpl in Hnodup.
  apply List.NoDup_remove_2 in Hnodup.
  unfold last_clamp. rewrite fold_left_app. simpl.
  rewrite bool_decide_eq_true_2 by exact Hkind.
  apply (last_clamp_without kind enum l2).
  intros c Hc Hck. apply Hnodup. apply in_or_app. right.
  rewrite <- Hkind in Hck. rewrite <- Hck. apply in_map. exact Hc.
Qed.

Lemma last_clamp_member (kind : CharacteristicsTypes) (enum : gset Z)
    (chars : list Characteristic.t) (member : Z) :
  List.NoDup (map Characteristic.type chars) ->
  member ∈ last_clamp kind enum chars ∅
  <-> exists char, In char chars /\ advertises kind enum member char.
Proof.
  intros Hnodup. split.
  - intros Hmember.
    destruct (existsb (fun c => bool_decide (Characteristic.type c = kind)) chars)
      eqn:E.
    + apply existsb_exists in E as (char & Hin & Hkind).
      apply bool_decide_eq_true in Hkind.
      rewrite (last_clamp_unique kind enum chars char Hnodup Hin Hkind) in Hmember.
      exists char. split; [exact Hin|]. split; assumption.
    + rewrite last_clamp_without in Hmember.
      * apply not_elem_of_empty in Hmember. destruct Hmember.
      * intros c Hc Hkind.
        assert (Ht : existsb (fun c => bool_decide (Characteristic.type c = kind))
                       chars = true).
        { apply existsb_exists. exists c. split; [exact Hc|].
          apply bool_decide_eq_true. exact Hkind. }
        congruence.
  - intros (char & Hin & Hkind & Hmember).
    rewrite (last_clamp_unique kind enum chars char Hnodup Hin Hkind). exact Hmember.
Qed.

Lemma log_grows (w : World) (request : put_request) :
  (puts w ++ [request])%list <> puts w.
Proof. exact (issue_changes_log w request). Qed.

Lemma play_effective (snap : Snapshot) (w : World) :
  state snap <> STATE_PLAYING ->
  puts (snd (async_media_play snap w)) <> puts w
  <-> TargetMediaStateValues.PLAY ∈ _supported_target_media_state (self w)
      \/ RemoteKeyValues.PLAY_PAUSE ∈ _supported_remote_key (self w).
Proof.
  intros Hstate. run_handler. decide_guards.
  repeat case_bool_decide; simpl; split; intros Hlog;
    try (apply log_grows); try tauto; try (exfalso; apply Hlog; reflexivity).
Qed.

Lemma pause_effective (snap : Snapshot) (w : World) :
  state snap <> STATE_PAUSED ->
  puts (snd (async_media_pause snap w)) <> puts w
  <-> TargetMediaStateValues.PAUSE ∈ _supported_target_media_state (self w)
      \/ RemoteKeyValues.PLAY_PAUSE ∈ _supported_remote_key (self w).
Proof.
  intros Hstate. run_handler. decide_guards.
  repeat case_bool_decide; simpl; split; intros Hlog;
    try (apply log_grows); try tauto; try (exfalso; apply Hlog; reflexivity).
Qed.

Lemma stop_effective (snap : Snapshot) (w : World) :
  state snap <> STATE_IDLE ->
  puts (snd (async_media_stop snap w)) <> puts w
  <-> TargetMediaStateValues.STOP ∈ _supported_target_media_state (self w).
Proof.
  intros Hstate. run_handler. decide_guards.
  repeat case_bool_decide; simpl; split; intros Hlog;
    try (apply log_grows); try tauto; try (exfalso; apply Hlog; reflexivity).
Qed.

Section Announced.
Context {C : media_player_const}.
Hypothesis flags : independent_flags C.
Variable chars : list Characteristic.t.
Hypothesis one_per_kind : List.NoDup (map Characteristic.type chars).

Lemma target_states_after_setup (member : Z) :
  member ∈ _supported_target_media_state (setup chars __init__)
  <-> exists char,
        In char chars
        /\ advertises TARGET_MEDIA_STATE TargetMediaStateValues.members member char.
Proof.
  destruct (setup_fields chars __init__) as (_ & _ & -> & _).
  apply last_clamp_member, one_per_kind.
Qed.

Lemma remote_keys_after_setup (member : Z) :
  member ∈ _supported_remote_key (setup chars __init__)
  <-> exists char,
        In char chars /\ advertises REMOTE_KEY RemoteKeyValues.members member char.
Proof.
  destruct (setup_fields chars __init__) as (_ & _ & _ & ->).
  apply last_clamp_member, one_per_kind.
Qed.

Lemma play_flag_after_setup :
  supports (supported_features (setup chars __init__)) SUPPORT_PLAY = true
  <-> TargetMediaStateValues.PLAY ∈ _supported_target_media_state (setup chars __init__)
      \/ RemoteKeyValues.PLAY_PAUSE ∈ _supported_remote_key (setup chars __init__).
Proof.
  rewrite (setup_from_init flags chars FeaturePlay).
  rewrite target_states_after_setup, remote_keys_after_setup, <- some_char_or.
  apply some_char_iff, enables_play.
Qed.

Lemma pause_flag_after_setup :
  supports (supported_features (setup chars __init__)) SUPPORT_PAUSE = true
  <-> TargetMediaStateValues.PAUSE ∈ _supported_target_media_state (setup chars __init__)
      \/ RemoteKeyValues.PLAY_PAUSE ∈ _supported_remote_key (setup chars __init__).
Proof.
  rewrite (setup_from_init flags chars FeaturePause).
  rewrite target_states_after_setup, remote_keys_after_setup, <- some_char_or.
  apply some_char_iff, enables_pause.
Qed.

Lemma stop_flag_after_setup :
  supports (supported_features (setup chars __init__)) SUPPORT_STOP = true
  <-> TargetMediaStateValues.STOP ∈ _supported_target_media_state (setup chars __init__).
Proof.
  rewrite (setup_from_init flags chars FeatureStop).
  rewrite target_states_after_setup.
  apply some_char_iff, enables_stop.
Qed.

End Announced.

(** X13: after a setup run from a fresh entity over characteristics of
    pairwise different kinds, a media feature is announced exactly when the
    command does something: on a television that is not yet in the target
    state, play (pause, stop) issues a request if and only if the play
    (pause, stop) flag is on. *)
Theorem announced_features_are_effective (C : media_player_const)
    (chars : list Characteristic.t) (snap : Snapshot) (w : World) :
  independent_flags C ->
  List.NoDup (map Characteristic.type chars) ->
  self w = setup chars __init__ ->
  (state snap <> STATE_PLAYING ->
   (supports (supported_features (self w)) SUPPORT_PLAY = true
    <-> puts (snd (async_media_play snap w)) <> puts w))
  /\ (state snap <> STATE_PAUSED ->
      (supports (supported_features (self w)) SUPPORT_PAUSE = true
       <-> puts (snd (async_media_pause snap w)) <> puts w))
  /\ (state snap <> STATE_IDLE ->
      (supports (supported_features (self w)) SUPPORT_STOP = true
       <-> puts (snd (async_media_stop snap w)) <> puts w)).
Proof.
  intros Hflags Hkinds Hself. split; [|split]; intros Hstate.
  - rewrite (play_effective snap w Hstate), Hself.
    apply play_flag_after_setup; assumption.
  - rewrite (pause_effective snap w Hstate), Hself.
    apply pause_flag_after_setup; assumption.
  - rewrite (stop_effective snap w Hstate), Hself.
    apply stop_flag_after_setup; assumption.
Qed.

Lemma announced_features_are_effective_witness :
  (supports (supported_features (setup (C := platform_const) sample_chars __init__))
     (@SUPPORT_PLAY platform_const) = true
   <-> puts (snd (async_media_play snap_on
                    (world_of (setup (C := platform_const) sample_chars __init__))))
       <> [])
  /\ (supports (supported_features (setup (C := platform_const) sample_chars __init__))
        (@SUPPORT_PAUSE platform_const) = true
      <-> puts (snd (async_media_pause snap_on
                       (world_of (setup (C := platform_const) sample_chars __init__))))
          <> []).
Proof.
  pose proof (announced_features_are_effective platform_const sample_chars snap_on
                (world_of (setup (C := platform_const) sample_chars __init__))
                platform_flags_independent) as H.
  destruct H as (Hplay & Hpause & _).
  - repeat constructor; simpl; intuition discriminate.
  - reflexivity.
  - split; [apply Hplay|apply Hpause]; vm_compute; discriminate.
Defined.
